(** * The AI suggestion pipeline of smart-todo (ai_module.py, views.py)

    A shallow embedding of [AITaskManagement] (src/ai_module.py): the LLM
    client adapter [_call_llm], the context summary and the post-processing
    of [get_task_suggestions], together with the two lookups of the
    lifecycle hook (src/views.py) that consume its result.

    Python values are embedded as data: JSON values as [json], Python
    dictionaries with string keys as [gmap string _], exceptions as [exn].
    Effects (console output, invocations of the adapter, requests sent to
    the chat backend) are recorded in a trace that is threaded through a
    small state-and-exception monad [M].  Functions of the Python runtime
    and of third-party libraries that the module calls ([json.loads],
    [json.dumps], [str], [int] on text, [datetime.strptime],
    [datetime.now], [os.getenv] and the chat-completions endpoint) are the
    fields of the class [Runtime]; every theorem holds for every runtime. *)

From Stdlib Require Import ZArith String Ascii List Lia.
From Stdlib Require Import Floats.SpecFloat.
From stdpp Require Import gmap strings list fin_maps.

Set Warnings "-register-all".
Open Scope Z_scope.

(** ** Python data *)

(** [datetime.datetime] (naive): the seven fields of the object. *)
Record datetime : Type := DateTime {
  year : Z; month : Z; day : Z;
  hour : Z; minute : Z; second : Z; microsecond : Z
}.

(** What [json.loads] produces: [None], [bool], [int], [float] (a binary
    float, which may be infinite or a NaN: the decoder accepts [Infinity],
    [NaN] and out-of-range literals such as [1e999]), [str], [list] and
    [dict] with string keys. *)
Inductive json : Type :=
| JNull
| JBool (b : bool)
| JInt (z : Z)
| JFloat (f : spec_float)
| JStr (s : string)
| JList (l : list json)
| JObj (o : gmap string json).

(** The values held by the [suggestions] dictionary while it is
    post-processed: what the decoder produced, or a [datetime] written by
    the deadline step. *)
Inductive value : Type :=
| VJson (j : json)
| VDateTime (t : datetime).

Coercion VJson : json >-> value.

(** The values of the mapping returned by [get_task_suggestions]: a field
    value, or (under "ai_raw_response") the post-processed [suggestions]
    dictionary itself. *)
Inductive outval : Type :=
| OVal (v : value)
| ORaw (d : gmap string value).

Coercion OVal : value >-> outval.

(** Modelled from the spec: the ContextEntry rows (context/models.py is
    not part of the sources); the hook reads them with
    [.values('content', 'source_type')], the spec gives both as text. *)
Record ContextEntry : Type := {
  content : string;
  source_type : string
}.

(** ** Exceptions and results *)

Inductive exn : Type :=
| ValueError
| TypeError
| OverflowError
| AttributeError
| KeyError
| JSONDecodeError (msg : string)   (* a subclass of ValueError *)
| ClientError (msg : string)       (* any other Exception raised in the try of _call_llm *)
| UnboundLocalError                (* a local variable read before it is bound *)
| OpenAIError.                     (* the constructor of the client without a key *)

#[global] Instance exn_eq_dec : EqDecision exn.
Proof. solve_decision. Defined.

Inductive result (A : Type) : Type :=
| Ok (a : A)
| Raise (e : exn).

Arguments Ok {A} a.
Arguments Raise {A} e.

(** [isinstance(e, ValueError)] and [isinstance(e, TypeError)]. *)
Definition is_ValueError (e : exn) : bool :=
  match e with ValueError | JSONDecodeError _ => true | _ => false end.

Definition is_TypeError (e : exn) : bool :=
  match e with TypeError => true | _ => false end.

(** [str(e)] for the exceptions that [_call_llm] reports. *)
Definition exn_message (e : exn) : string :=
  match e with
  | JSONDecodeError m | ClientError m => m
  | ValueError => "ValueError"
  | TypeError => "TypeError"
  | OverflowError => "OverflowError"
  | AttributeError => "AttributeError"
  | KeyError => "KeyError"
  | UnboundLocalError => "UnboundLocalError"
  | OpenAIError => "OpenAIError"
  end.

(** ** The adapter's resources *)

(** The object built by [OpenAI(...)]: its two constructor arguments. *)
Record client : Type := OpenAI {
  base_url : option string;
  api_key : option string
}.

(** The keyword arguments of [chat.completions.create]. *)
Record request : Type := {
  req_model : string;
  req_system : string;          (* content of the system message *)
  req_user : string;            (* content of the user message *)
  req_response_format : string; (* the "type" of response_format *)
  req_temperature : Z * Z;      (* 0.7, as the fraction 7/10 *)
  req_max_tokens : Z
}.

(** What [create(...)] followed by [response.choices[0].message.content]
    does: an exception other than a JSON decode error, with its message
    (a reply whose content is not text counts here: [json.loads] raises
    TypeError on it, with the same effect); a [json.JSONDecodeError]
    raised by the request itself, before [response] is bound; or the
    text of the reply. *)
Inductive api_outcome : Type :=
| ApiRaise (msg : string)
| ApiRaiseDecode (msg : string)
| ApiContent (text : string).

(** How [json.loads] fails on a text: with [json.JSONDecodeError], or with
    another exception (RecursionError on deeply nested text, the plain
    ValueError of an integer with too many digits), each with its message. *)
Inductive decode_failure : Type :=
| DecodeError (msg : string)
| DecodeCrash (msg : string).

(** Observable effects, in the order they happen. *)
Inductive event : Type :=
| EvCall (prompt model_name : string) (max_tokens : Z)  (* _call_llm entered *)
| EvRequest (c : client) (r : request)                  (* request sent *)
| EvPrint (line : string).                              (* print(...) *)

Class Runtime : Type := {
  (** [json.loads]: the decoded value, or the way it fails *)
  json_loads : string -> json + decode_failure;
  (** [json.dumps] on the user preferences *)
  json_dumps : json -> string;
  (** [str(x)] for a value that is not a [str] *)
  py_str : json -> string;
  (** [int(s)] for a [str]; [None] is ValueError *)
  int_of_str : string -> option Z;
  (** [datetime.strptime(s, '%Y-%m-%d %H:%M:%S')]; [None] is ValueError *)
  strptime : string -> option datetime;
  (** [datetime.now()] *)
  datetime_now : datetime;
  (** [os.getenv] *)
  getenv : string -> option string;
  (** the chat backend: the outcome of the n-th request sent *)
  chat_create : nat -> client -> request -> api_outcome
}.

(** ** The effect monad: a trace of events, and exceptions *)

Definition M (A : Type) : Type := list event -> result A * list event.

Definition ret {A} (a : A) : M A := fun t => (Ok a, t).

Definition raise {A} (e : exn) : M A := fun t => (Raise e, t).

Definition bind {A B} (m : M A) (k : A -> M B) : M B :=
  fun t => match m t with
           | (Ok a, t') => k a t'
           | (Raise e, t') => (Raise e, t')
           end.

Definition emit (ev : event) : M unit := fun t => (Ok tt, t ++ [ev]).

Definition print (line : string) : M unit := emit (EvPrint line).

Definition lift {A} (r : result A) : M A := fun t => (r, t).

(** [try: body except ...]: the handler says which exceptions it catches. *)
Definition try_except {A} (body : M A) (handler : exn -> option (M A)) : M A :=
  fun t => match body t with
           | (Raise e, t') =>
               match handler e with
               | Some h => h t'
               | None => (Raise e, t')
               end
           | r => r
           end.

Declare Scope py_scope.
Delimit Scope py_scope with py.
Notation "x <- m ;; k" := (bind m (fun x => k))
  (at level 100, m at next level, right associativity) : py_scope.
Notation "m ;;; k" := (bind m (fun _ => k))
  (at level 100, right associativity) : py_scope.
Open Scope py_scope.

(** ** Python primitives *)

Definition nl : string := String (ascii_of_nat 10) EmptyString.
Definition dq : string := String (ascii_of_nat 34) EmptyString.

(** [x in d] and [d.get(k, default)] and [d[k]] on a dictionary. *)
Definition contains {V} (d : gmap string V) (k : string) : bool :=
  bool_decide (is_Some (d !! k)).

Definition dict_get {V} (d : gmap string V) (k : string) (dflt : V) : V :=
  default dflt (d !! k).

Definition getitem {V} (d : gmap string V) (k : string) : result V :=
  match d !! k with
  | Some v => Ok v
  | None => Raise KeyError
  end.

(** Line 170: [max(1, min(100, n))]. *)
Definition clamp (n : Z) : Z := Z.max 1 (Z.min 100 n).

(** Truth value of a dictionary: it is not empty. *)
Definition dict_truthy {V} (d : gmap string V) : bool :=
  negb (bool_decide (size d = 0%nat)).

(** Truth value of a float: it is not a zero. *)
Definition float_truthy (f : spec_float) : bool :=
  match f with S754_zero _ => false | _ => true end.

Definition json_truthy (j : json) : bool :=
  match j with
  | JNull => false
  | JBool b => b
  | JInt z => negb (z =? 0)
  | JFloat f => float_truthy f
  | JStr s => negb (bool_decide (s = ""%string))
  | JList l => match l with [] => false | _ => true end
  | JObj o => dict_truthy o
  end.

Definition value_truthy (v : value) : bool :=
  match v with
  | VJson j => json_truthy j
  | VDateTime _ => true
  end.

(** [int(f)] for a float: truncation towards zero; an infinity is an
    OverflowError and a NaN a ValueError. *)
Definition int_of_float (f : spec_float) : result Z :=
  match f with
  | S754_zero _ => Ok 0
  | S754_infinity _ => Raise OverflowError
  | S754_nan => Raise ValueError
  | S754_finite s m e =>
      let mag := if 0 <=? e then Z.pos m * 2 ^ e else Z.pos m / 2 ^ (- e) in
      Ok (if s then - mag else mag)
  end.

Section WithRuntime.
Context `{RT : Runtime}.

(** [int(x)]. *)
Definition py_int (v : value) : result Z :=
  match v with
  | VJson (JBool b) => Ok (if b then 1 else 0)
  | VJson (JInt z) => Ok z
  | VJson (JFloat f) => int_of_float f
  | VJson (JStr s) =>
      match int_of_str s with
      | Some z => Ok z
      | None => Raise ValueError
      end
  | VJson JNull | VJson (JList _) | VJson (JObj _) | VDateTime _ => Raise TypeError
  end.

(** How an f-string renders a value: a [str] as itself. *)
Definition fmt (j : json) : string :=
  match j with
  | JStr s => s
  | _ => py_str j
  end.

(** [isinstance(x, list)]. *)
Definition isinstance_list (v : value) : bool :=
  match v with
  | VJson (JList _) => true
  | _ => false
  end.

(** ** datetime arithmetic *)

Definition is_leap (y : Z) : bool :=
  ((y mod 4 =? 0) && negb (y mod 100 =? 0)) || (y mod 400 =? 0).

Definition days_in_month (y m : Z) : Z :=
  if m =? 2 then (if is_leap y then 29 else 28)
  else if (m =? 4) || (m =? 6) || (m =? 9) || (m =? 11) then 30
  else 31.

Definition next_day (t : datetime) : datetime :=
  if day t <? days_in_month (year t) (month t) then
    DateTime (year t) (month t) (day t + 1) (hour t) (minute t) (second t) (microsecond t)
  else if month t <? 12 then
    DateTime (year t) (month t + 1) 1 (hour t) (minute t) (second t) (microsecond t)
  else
    DateTime (year t + 1) 1 1 (hour t) (minute t) (second t) (microsecond t).

(** [t + timedelta(days=n)]: the date moves, the time of day stays.  (The
    bound of [datetime] on the year, 9999, is not modelled.) *)
Definition add_days (n : nat) (t : datetime) : datetime := Nat.iter n next_day t.

(** [t.replace(hour=h, minute=mi, second=s, microsecond=us)]. *)
Definition replace_time (t : datetime) (h mi s us : Z) : datetime :=
  DateTime (year t) (month t) (day t) h mi s us.

(** ** [AITaskManagement] *)

Record AITaskManagement : Type := {
  api_choice : string;
  the_client : option client     (* self.client *)
}.

(** [not api_key] for the result of [os.getenv]. *)
Definition env_missing (k : option string) : bool :=
  match k with
  | None => true
  | Some s => bool_decide (s = ""%string)
  end.

(** [OpenAI(base_url=..., api_key=...)]: without a key the constructor of
    the library reads OPENAI_API_KEY itself, and raises OpenAIError when
    that is not set either. *)
Definition new_client (url key : option string) : result client :=
  match key with
  | Some _ => Ok (OpenAI url key)
  | None =>
      match getenv "OPENAI_API_KEY" with
      | Some k => Ok (OpenAI url (Some k))
      | None => Raise OpenAIError
      end
  end.

(** Lines 25-50. *)
Definition _initialize_llm_client (choice : string) : M (option client) :=
  if bool_decide (choice = "openai"%string) then
    let key := getenv "OPENAI_API_KEY" in
    (if env_missing key
     then print "Warning: OPENAI_API_KEY not found in environment variables. OpenAI client may not work."
     else ret tt) ;;;
    c <- lift (new_client None key) ;;
    ret (Some c)
  else if bool_decide (choice = "claude"%string) then
    let key := getenv "ANTHROPIC_API_KEY" in
    (if env_missing key
     then print "Warning: ANTHROPIC_API_KEY not found in environment variables. Claude client may not work."
     else ret tt) ;;;
    print "Claude client not fully implemented in this example, requires 'anthropic' package and specific API calls." ;;;
    ret None
  else if bool_decide (choice = "lm_studio"%string) then
    let lm_studio_base_url := default "http://localhost:1234/v1"%string (getenv "LM_STUDIO_BASE_URL") in
    c <- lift (new_client (Some lm_studio_base_url) (Some "lm-studio-key"%string)) ;;
    ret (Some c)
  else
    raise ValueError.

(** Lines 17-23: [AITaskManagement(api_choice)]. *)
Definition __init__ (choice : string) : M AITaskManagement :=
  c <- _initialize_llm_client choice ;;
  ret {| api_choice := choice; the_client := c |}.

(** The number of requests already sent, which selects the backend's answer. *)
Definition is_request (ev : event) : bool :=
  match ev with EvRequest _ _ => true | _ => false end.

Definition requests_sent (t : list event) : nat :=
  length (List.filter is_request t).

(** Lines 63-72 and the read of [response.choices[0].message.content]. *)
Definition create_completion (c : client) (r : request) : M string :=
  fun t =>
    match chat_create (requests_sent t) c r with
    | ApiRaise msg => (Raise (ClientError msg), t ++ [EvRequest c r])
    | ApiRaiseDecode msg => (Raise (JSONDecodeError msg), t ++ [EvRequest c r])
    | ApiContent text => (Ok text, t ++ [EvRequest c r])
    end.

(** Line 74: [json.loads(content)]. *)
Definition decode (text : string) : M json :=
  match json_loads text with
  | inl v => ret v
  | inr (DecodeError msg) => raise (JSONDecodeError msg)
  | inr (DecodeCrash msg) => raise (ClientError msg)
  end.

(** Lines 63-72: the arguments of the request. *)
Definition chat_request (prompt model_name : string) (max_tokens : Z) : request :=
  {| req_model := model_name;
     req_system := "You are a smart task management assistant. Provide responses in JSON format.";
     req_user := prompt;
     req_response_format := "json_object";
     req_temperature := (7, 10);
     req_max_tokens := max_tokens |}.

(** Lines 52-94.  Line 63 binds [response] only when the request returns.
    The handler of line 89 (JSON decode error) prints the text held by
    [response]: after a reply that does not decode it prints and returns,
    so that case is written where the text is in scope; when the request
    itself raised the decode error, [response] is unbound and reading it
    at line 90 raises UnboundLocalError, which leaves the function.  The
    handler of line 92 catches every other exception.  The first event
    records the invocation. *)
Definition _call_llm (self : AITaskManagement) (prompt model_name : string)
    (max_tokens : Z) : M json :=
  emit (EvCall prompt model_name max_tokens) ;;;
  match the_client self with
  | None =>
      print "LLM client not initialized. Cannot make API call." ;;;
      ret (JObj ∅)
  | Some c =>
      if bool_decide (api_choice self = "openai"%string)
         || bool_decide (api_choice self = "lm_studio"%string) then
        try_except
          (text <- create_completion c (chat_request prompt model_name max_tokens) ;;
           try_except (decode text)
             (fun e => match e with
                       | JSONDecodeError m => Some (
                           print ("Error decoding JSON from LLM response: " +:+ m
                                  +:+ ". Raw content: " +:+ text) ;;;
                           ret (JObj {[ "error" := JStr "JSON decoding failed";
                                        "details" := JStr m ]}))
                       | _ => None
                       end))
          (fun e => match e with
                    | JSONDecodeError _ => Some (raise UnboundLocalError)
                    | _ => Some (
                        print ("Error calling LLM: " +:+ exn_message e) ;;;
                        ret (JObj {[ "error" := JStr (exn_message e) ]}))
                    end)
      else if bool_decide (api_choice self = "claude"%string) then
        print "Claude API call not implemented in this example." ;;;
        ret (JObj ∅)
      else
        ret JNull
  end.

(** The adapter reaches the backend: a client for an API choice that
    lines 62-74 serve. *)
Definition supported (self : AITaskManagement) : Prop :=
  api_choice self = "openai"%string \/ api_choice self = "lm_studio"%string.

(** The invocations of [_call_llm] recorded in a trace. *)
Definition is_call (ev : event) : bool :=
  match ev with EvCall _ _ _ => true | _ => false end.

Definition calls_of (t : list event) : list event := List.filter is_call t.

(** ** [get_task_suggestions] *)

(** [sep.join(parts)] and [s[:n]]. *)
Fixpoint str_join (sep : string) (parts : list string) : string :=
  match parts with
  | [] => ""
  | [p] => p
  | p :: rest => p +:+ sep +:+ str_join sep rest
  end.

Fixpoint str_take (n : nat) (s : string) : string :=
  match n, s with
  | S n', String c s' => String c (str_take n' s')
  | _, _ => ""
  end.

(** Line 125. *)
Definition context_line (c : ContextEntry) : string :=
  "Source: " +:+ source_type c +:+ ": " +:+ content c.

Definition combined_context_of (daily_context_data : list ContextEntry) : string :=
  str_join nl (map context_line daily_context_data).

(** Lines 126-129. *)
Definition context_summary_prompt_of (combined_context : string) : string :=
  "Summarize the following daily context in a concise manner, highlighting any urgent matters, commitments, or schedule conflicts." +:+ nl
  +:+ "            Context:" +:+ nl
  +:+ "            " +:+ combined_context +:+ nl
  +:+ "            ".

(** Line 131: the fallback text. *)
Definition summary_fallback (combined_context : string) : string :=
  str_take 200 combined_context +:+ "...".

(** Lines 122-131: the value of [context_summary_text].  [.get] on a reply
    that is not a dictionary is an AttributeError. *)
Definition context_summary (self : AITaskManagement)
    (daily_context_data : list ContextEntry) : M json :=
  match daily_context_data with
  | [] => ret (JStr "No daily context available.")
  | _ :: _ =>
      let combined_context := combined_context_of daily_context_data in
      summary_response <-
        _call_llm self (context_summary_prompt_of combined_context) "gpt-3.5-turbo" 150 ;;
      match summary_response with
      | JObj o => ret (dict_get o "summary" (JStr (summary_fallback combined_context)))
      | _ => raise AttributeError
      end
  end.

(** Lines 134-161. *)
Definition suggestion_prompt (task_title task_description task_category
    context_summary_text user_preferences : json) (current_task_load : Z) : string :=
  nl
  +:+ "        Given the following task details, daily context, user preferences, and current task load, provide AI-powered suggestions." +:+ nl
  +:+ "        The output should be a JSON object with the following keys:" +:+ nl
  +:+ "        - " +:+ dq +:+ "priority_score" +:+ dq +:+ ": An integer from 1 to 100 (100 being highest priority), reflecting urgency and importance." +:+ nl
  +:+ "        - " +:+ dq +:+ "deadline" +:+ dq +:+ ": A suggested deadline in YYYY-MM-DD HH:MM:SS format, or null if no clear deadline can be inferred." +:+ nl
  +:+ "        - " +:+ dq +:+ "suggested_category" +:+ dq +:+ ": A concise suggested category or tag for the task (e.g., 'Work', 'Personal', 'Finance', 'Health', 'Shopping')." +:+ nl
  +:+ "        - " +:+ dq +:+ "enhanced_description" +:+ dq +:+ ": An improved and more detailed task description, incorporating relevant context-aware details." +:+ nl
  +:+ "        - " +:+ dq +:+ "recommendations" +:+ dq +:+ ": A list of short, actionable recommendations or sub-tasks related to the main task." +:+ nl
  +:+ nl
  +:+ "        Task Title: " +:+ fmt task_title +:+ nl
  +:+ "        Task Description: " +:+ fmt task_description +:+ nl
  +:+ "        Existing Category: " +:+ fmt task_category +:+ nl
  +:+ nl
  +:+ "        Daily Context Summary:" +:+ nl
  +:+ "        " +:+ fmt context_summary_text +:+ nl
  +:+ nl
  +:+ "        User Preferences: " +:+ json_dumps user_preferences +:+ nl
  +:+ "        Current Task Load: " +:+ py_str (JInt current_task_load) +:+ " pending tasks" +:+ nl
  +:+ nl
  +:+ "        Consider the following when generating suggestions:" +:+ nl
  +:+ "        - **Urgency:** Look for keywords like " +:+ dq +:+ "urgent" +:+ dq +:+ ", " +:+ dq +:+ "deadline" +:+ dq +:+ ", " +:+ dq +:+ "ASAP" +:+ dq +:+ ", dates, or implied timeframes in context." +:+ nl
  +:+ "        - **Importance:** Identify key entities, people, or projects mentioned." +:+ nl
  +:+ "        - **Complexity:** Estimate effort based on description." +:+ nl
  +:+ "        - **Workload:** Suggest realistic deadlines given the current task load." +:+ nl
  +:+ "        - **Contextual Relevance:** Integrate details from the daily context into the enhanced description." +:+ nl
  +:+ "        - **Categorization:** Suggest a category that best fits the task and context." +:+ nl
  +:+ "        - **Default Deadline:** If no clear deadline is inferred, suggest a reasonable default, like 3 days from now, at a standard end-of-day time (e.g., 5 PM)." +:+ nl
  +:+ "        ".

(** Lines 118-163: everything up to the value of [suggestions], the result
    of the LLM layer. *)
Definition llm_layer (self : AITaskManagement) (task_details : gmap string json)
    (daily_context_data : list ContextEntry) (user_preferences : json)
    (current_task_load : Z) : M json :=
  let task_title := dict_get task_details "title" (JStr "") in
  let task_description := dict_get task_details "description" (JStr "") in
  let task_category := dict_get task_details "category" (JStr "Uncategorized") in
  context_summary_text <- context_summary self daily_context_data ;;
  _call_llm self
    (suggestion_prompt task_title task_description task_category
       context_summary_text user_preferences current_task_load)
    "gpt-4o-mini" 400.

(** Lines 167-172.  Line 170 reads back the integer stored by line 169. *)
Definition priority_step (s : gmap string value) : M (gmap string value) :=
  if dict_truthy s && contains s "priority_score" then
    try_except
      (v <- lift (getitem s "priority_score") ;;
       n <- lift (py_int v) ;;
       let s1 := <["priority_score" := VJson (JInt n)]> s in
       ret (<["priority_score" := VJson (JInt (clamp n))]> s1))
      (fun e => if is_ValueError e || is_TypeError e
                then Some (ret (<["priority_score" := VJson (JInt 50)]> s))
                else None)
  else ret s.

(** Lines 175-183.  [datetime.strptime] raises TypeError when its argument
    is not a [str], and ValueError when the text does not parse; the
    handler catches ValueError only. *)
Definition deadline_step (s : gmap string value) : M (gmap string value) :=
  if dict_truthy s && contains s "deadline"
     && value_truthy (dict_get s "deadline" (VJson JNull)) then
    match s !! "deadline" with
    | Some (VJson (JStr text)) =>
        match strptime text with
        | Some t => ret (<["deadline" := VDateTime t]> s)
        | None =>
            print ("Warning: Could not parse AI suggested deadline: " +:+ text
                   +:+ ". Setting a default.") ;;;
            ret (<["deadline" := VJson JNull]> s)
        end
    | _ => raise TypeError
    end
  else ret (<["deadline" := VJson JNull]> s).

(** Lines 187-189: three days from now, at 17:00:00.000000. *)
Definition default_deadline (now : datetime) : datetime :=
  replace_time (add_days 3 now) 17 0 0 0.

(** Lines 186-189. *)
Definition default_deadline_step (s : gmap string value) : M (gmap string value) :=
  if dict_truthy s then
    v <- lift (getitem s "deadline") ;;
    match v with
    | VJson JNull => ret (<["deadline" := VDateTime (default_deadline datetime_now)]> s)
    | _ => ret s
    end
  else ret s.

(** Lines 192-193. *)
Definition recommendations_step (s : gmap string value) : M (gmap string value) :=
  if dict_truthy s && contains s "recommendations"
     && negb (isinstance_list (dict_get s "recommendations" (VJson JNull)))
  then ret (<["recommendations" := VJson (JList [])]> s)
  else ret s.

(** Lines 196-203: the returned dictionary; "ai_raw_response" is the
    post-processed [suggestions] object itself. *)
Definition build_result (task_category task_description : json)
    (s : gmap string value) : gmap string outval :=
  {[ "priority_score" := OVal (dict_get s "priority_score" (VJson (JInt 50)));
     "deadline" := OVal (dict_get s "deadline" (VJson JNull));
     "suggested_category" := OVal (dict_get s "suggested_category" (VJson task_category));
     "enhanced_description" := OVal (dict_get s "enhanced_description" (VJson task_description));
     "recommendations" := OVal (dict_get s "recommendations" (VJson (JList [])));
     "ai_raw_response" := ORaw s ]}.

(** Lines 165-203 on a dictionary. *)
Definition post_process (task_category task_description : json)
    (s : gmap string value) : M (gmap string outval) :=
  s1 <- priority_step s ;;
  s2 <- deadline_step s1 ;;
  s3 <- default_deadline_step s2 ;;
  s4 <- recommendations_step s3 ;;
  ret (build_result task_category task_description s4).

(** Lines 113-203.  When [suggestions] is not a dictionary, the membership
    tests or the item assignment of line 183 raise TypeError. *)
Definition get_task_suggestions (self : AITaskManagement)
    (task_details : gmap string json) (daily_context_data : list ContextEntry)
    (user_preferences : json) (current_task_load : Z) : M (gmap string outval) :=
  let task_description := dict_get task_details "description" (JStr "") in
  let task_category := dict_get task_details "category" (JStr "Uncategorized") in
  suggestions <- llm_layer self task_details daily_context_data
                   user_preferences current_task_load ;;
  match suggestions with
  | JObj o => post_process task_category task_description (VJson <$> o)
  | _ => raise TypeError
  end.

(** ** The fields of the result, as functions of the reply

    What lines 165-203 make of the three validated fields of the reply
    when they return; the theorems below relate the steps to them. *)

(** The priority: the clamped integer, or 50 when [int] fails or the field
    is absent. *)
Definition priority_outcome (v : option value) : value :=
  match v with
  | Some v => VJson (JInt (match py_int v with Ok m => clamp m | Raise _ => 50 end))
  | None => VJson (JInt 50)
  end.

(** The deadline: the parsed timestamp of a non-empty text that parses,
    the default otherwise. *)
Definition deadline_outcome (v : option value) : datetime :=
  match v with
  | Some (VJson (JStr text)) =>
      if bool_decide (text = ""%string) then default_deadline datetime_now
      else default (default_deadline datetime_now) (strptime text)
  | _ => default_deadline datetime_now
  end.

(** The recommendations: the list of the reply, or the empty list. *)
Definition recommendations_outcome (v : option value) : list json :=
  match v with
  | Some (VJson (JList l)) => l
  | _ => []
  end.

(** ** Notions used by the statements *)

(** The failures of an invocation that the adapter turns into a value:
    there is no client, the request raises an exception other than a JSON
    decode error, or [json.loads] fails on the reply. *)
Definition llm_call_fails (self : AITaskManagement) (prompt model_name : string)
    (max_tokens : Z) (t : list event) : Prop :=
  the_client self = None
  \/ exists c, the_client self = Some c /\ supported self
       /\ ((exists msg, chat_create (requests_sent t) c
                          (chat_request prompt model_name max_tokens) = ApiRaise msg)
           \/ (exists text failure,
                 chat_create (requests_sent t) c
                   (chat_request prompt model_name max_tokens) = ApiContent text
                 /\ json_loads text = inr failure)).

(** The failure that the adapter does not turn into a value: the request
    itself raises a JSON decode error. *)
Definition request_decode_error (self : AITaskManagement) (prompt model_name : string)
    (max_tokens : Z) (t : list event) : Prop :=
  exists c msg, the_client self = Some c /\ supported self
    /\ chat_create (requests_sent t) c (chat_request prompt model_name max_tokens)
       = ApiRaiseDecode msg.

(** The line of a context entry in the words of the specification:
    "<source_type>: <content>". *)
Definition spec_context_line (c : ContextEntry) : string :=
  source_type c +:+ ": " +:+ content c.

Definition spec_combined_context (daily_context_data : list ContextEntry) : string :=
  str_join nl (map spec_context_line daily_context_data).

(** [needle in text] for two strings. *)
Fixpoint is_substring (needle text : string) : bool :=
  String.prefix needle text
  || match text with
     | EmptyString => false
     | String _ rest => is_substring needle rest
     end.

(** A value of the adapter carries a text: one of its entries is a string
    in which the text occurs. *)
Definition carries_text (v : json) (raw : string) : bool :=
  match v with
  | JObj o =>
      existsb (fun kv => match snd kv with
                         | JStr s => is_substring raw s
                         | _ => false
                         end) (map_to_list o)
  | _ => false
  end.

(** A failure value of the adapter: a dictionary with an "error" entry, as
    built by the two handlers of [_call_llm]. *)
Definition is_failure (v : json) : bool :=
  match v with
  | JObj o => contains o "error"
  | _ => false
  end.

(** ** The lifecycle hook (views.py, lines 61-62) *)

Definition hook_priority_score (ai_suggestions : gmap string outval) : outval :=
  dict_get ai_suggestions "priority_score" (OVal (VJson (JInt 0))).

Definition hook_deadline (ai_suggestions : gmap string outval) : outval :=
  dict_get ai_suggestions "deadline" (OVal (VJson JNull)).

(** ** [process_daily_context] (lines 96-111) *)

(** Lines 101-108. *)
Definition daily_context_prompt (context_content : string) : string :=
  nl
  +:+ "        Analyze the following daily context and extract key entities, potential tasks, urgent keywords, and general sentiment." +:+ nl
  +:+ "        Summarize the context concisely, highlighting any commitments or important information." +:+ nl
  +:+ "        Format the output as a JSON object with keys: " +:+ dq +:+ "entities" +:+ dq +:+ " (list of strings), " +:+ dq +:+ "potential_tasks" +:+ dq +:+ " (list of strings), " +:+ dq +:+ "urgent_keywords" +:+ dq +:+ " (list of strings), " +:+ dq +:+ "sentiment" +:+ dq +:+ " (string, e.g., 'positive', 'neutral', 'negative'), " +:+ dq +:+ "summary" +:+ dq +:+ " (string)." +:+ nl
  +:+ nl
  +:+ "        Daily Context:" +:+ nl
  +:+ "        " +:+ context_content +:+ nl
  +:+ "        ".

(** Lines 110-111: [insights if insights else {}]. *)
Definition process_daily_context (self : AITaskManagement) (context_content : string)
    : M json :=
  insights <- _call_llm self (daily_context_prompt context_content) "gpt-3.5-turbo" 300 ;;
  ret (if json_truthy insights then insights else JObj ∅).

(** ** The task record and the arguments of the hook (models.py, views.py) *)

(** models.py lines 7-14: the fields of a category that the hook reads. *)
Record Category : Type := {
  name : string;
  usage_frequency : Z
}.

(** models.py lines 23-35: the fields of a task that the hook reads or
    assigns (the key, the owner and the two timestamps are left out). *)
Record Task : Type := {
  title : string;
  description : option string;
  category : option Category;
  priority_score : outval;
  deadline : outval;
  status : string;
  ai_suggestions : option (gmap string outval)
}.

(** views.py lines 50-54 and 91-95: the [task_details] argument. *)
Definition task_details_of (task : Task) : gmap string json :=
  {[ "title" := JStr (title task);
     "description" := match description task with
                      | Some text => JStr text
                      | None => JNull
                      end;
     "category" := match category task with
                   | Some c => JStr (name c)
                   | None => JNull
                   end ]}.

(** ** The post-processed dictionary, entry by entry *)

(** The entry that lines 165-193 leave under a key of [suggestions]. *)
Definition processed_entry (s : gmap string value) (k : string) : option value :=
  if bool_decide (k = "priority_score"%string) then
    (fun _ => priority_outcome (s !! k)) <$> s !! k
  else if bool_decide (k = "deadline"%string) then
    Some (VDateTime (deadline_outcome (s !! k)))
  else if bool_decide (k = "recommendations"%string) then
    (fun _ => VJson (JList (recommendations_outcome (s !! k)))) <$> s !! k
  else s !! k.

(** The lines that lines 165-193 print: the warning of line 180, for a
    deadline that is a non-empty text and does not parse. *)
Definition deadline_warning (v : option value) : list event :=
  match v with
  | Some (VJson (JStr text)) =>
      if bool_decide (text = ""%string) then []
      else match strptime text with
           | Some _ => []
           | None => [EvPrint ("Warning: Could not parse AI suggested deadline: " +:+ text
                               +:+ ". Setting a default.")]
           end
  | _ => []
  end.

End WithRuntime.

(** ** A test double for the runtime

    A fixed clock, an empty environment, a scripted backend and a decoder
    given by a table of reply texts.  It is used to run the definitions on
    concrete inputs; no general theorem depends on it. *)
Module Demo.

Definition digit_of (c : ascii) : option Z :=
  let n := Z.of_nat (nat_of_ascii c) in
  if (48 <=? n) && (n <=? 57) then Some (n - 48) else None.

Fixpoint digits_value (acc : Z) (s : string) : option Z :=
  match s with
  | EmptyString => Some acc
  | String c s' =>
      match digit_of c with
      | Some d => digits_value (10 * acc + d) s'
      | None => None
      end
  end.

(** A sign and ASCII decimal digits. *)
Definition parse_int (s : string) : option Z :=
  match s with
  | EmptyString => None
  | String "-" (String c s') => Z.opp <$> digits_value 0 (String c s')
  | String "+" (String c s') => digits_value 0 (String c s')
  | _ => digits_value 0 s
  end.

Definition field (s : string) (pos len : nat) : option Z :=
  let f := substring pos len s in
  if Nat.eqb (String.length f) len then digits_value 0 f else None.

Definition sep_at (s : string) (pos : nat) (c : ascii) : bool :=
  match get pos s with
  | Some c' => bool_decide (c = c')
  | None => false
  end.

(** The zero-padded form YYYY-MM-DD HH:MM:SS of the format, with the
    range checks of [datetime]. *)
Definition parse_deadline (s : string) : option datetime :=
  if Nat.eqb (String.length s) 19
     && sep_at s 4 "-" && sep_at s 7 "-" && sep_at s 10 " "
     && sep_at s 13 ":" && sep_at s 16 ":" then
    match field s 0 4, field s 5 2, field s 8 2,
          field s 11 2, field s 14 2, field s 17 2 with
    | Some y, Some mo, Some d, Some h, Some mi, Some sec =>
        if (1 <=? y) && (1 <=? mo) && (mo <=? 12) && (1 <=? d)
           && (d <=? (if mo =? 2
                      then (if ((y mod 4 =? 0) && negb (y mod 100 =? 0)) || (y mod 400 =? 0)
                            then 29 else 28)
                      else if (mo =? 4) || (mo =? 6) || (mo =? 9) || (mo =? 11)
                           then 30 else 31))
           && (h <=? 23) && (mi <=? 59) && (sec <=? 59)
        then Some (DateTime y mo d h mi sec 0)
        else None
    | _, _, _, _, _, _ => None
    end
  else None.

(** The decoder: a table of texts and their values; any other text is
    rejected with the message of the decoder for a text that starts with
    no JSON value. *)
Definition table_loads (table : list (string * json)) (text : string)
    : json + decode_failure :=
  match List.find (fun p => bool_decide (fst p = text)) table with
  | Some p => inl (snd p)
  | None => inr (DecodeError "Expecting value: line 1 column 1 (char 0)")
  end.

Definition sample_now : datetime := DateTime 2025 3 7 10 30 15 123456.

Definition runtime (script : list api_outcome) (table : list (string * json)) : Runtime := {|
  json_loads := table_loads table;
  json_dumps := fun _ => "{}"%string;
  py_str := fun j => match j with JNull => "None" | _ => "0" end%string;
  int_of_str := parse_int;
  strptime := parse_deadline;
  datetime_now := sample_now;
  getenv := fun _ => None;
  chat_create := fun n _ _ => nth n script (ApiRaise "Connection error.")
|}.

Definition openai_manager : AITaskManagement :=
  {| api_choice := "openai"; the_client := Some (OpenAI None (Some "sk-test"%string)) |}.

Definition claude_manager : AITaskManagement :=
  {| api_choice := "claude"; the_client := None |}.

Definition sample_task : gmap string json :=
  {[ "title" := JStr "Pay rent"; "description" := JStr "Transfer to landlord";
     "category" := JStr "Finance" ]}.

Definition sample_context : list ContextEntry :=
  [ {| content := "Rent is due Friday"; source_type := "email" |};
    {| content := "Call the bank"; source_type := "note" |} ].

(** Reply texts and what [json.loads] makes of them. *)
Definition text_priority_overflow : string :=
  "{" +:+ dq +:+ "priority_score" +:+ dq +:+ ": 1e999}".

Definition text_deadline_number : string :=
  "{" +:+ dq +:+ "deadline" +:+ dq +:+ ": 1741597200}".

Definition text_full : string :=
  "{" +:+ dq +:+ "priority_score" +:+ dq +:+ ": 250, "
      +:+ dq +:+ "deadline" +:+ dq +:+ ": " +:+ dq +:+ "2025-03-10 09:00:00" +:+ dq +:+ ", "
      +:+ dq +:+ "recommendations" +:+ dq +:+ ": " +:+ dq +:+ "do it now" +:+ dq +:+ "}".

Definition text_summary : string :=
  "{" +:+ dq +:+ "summary" +:+ dq +:+ ": " +:+ dq +:+ "Rent due Friday." +:+ dq +:+ "}".

Definition replies : list (string * json) :=
  [ (text_priority_overflow, JObj {[ "priority_score" := JFloat (S754_infinity false) ]});
    (text_deadline_number, JObj {[ "deadline" := JInt 1741597200 ]});
    (text_full, JObj {[ "priority_score" := JInt 250;
                        "deadline" := JStr "2025-03-10 09:00:00";
                        "recommendations" := JStr "do it now" ]});
    (text_summary, JObj {[ "summary" := JStr "Rent due Friday." ]}) ].

Definition text_prose : string := "Sure, here are my suggestions".

(** The backends of the examples: the scripted replies, in order; a
    request beyond the script raises. *)
Definition outage_runtime : Runtime := runtime [] replies.
Definition overflow_runtime : Runtime := runtime [ApiContent text_priority_overflow] replies.
Definition number_runtime : Runtime := runtime [ApiContent text_deadline_number] replies.
Definition full_runtime : Runtime := runtime [ApiContent text_full] replies.
Definition prose_runtime : Runtime := runtime [ApiContent text_prose] replies.
Definition summary_runtime : Runtime :=
  runtime [ApiContent text_summary; ApiContent text_full] replies.

Definition no_preferences : json := JObj ∅.

(** More reply texts, for the runs of the further properties. *)
Definition text_null_category : string :=
  "{" +:+ dq +:+ "suggested_category" +:+ dq +:+ ": null}".

Definition text_valid : string :=
  "{" +:+ dq +:+ "priority_score" +:+ dq +:+ ": 80, "
      +:+ dq +:+ "deadline" +:+ dq +:+ ": " +:+ dq +:+ "2025-03-10 09:00:00" +:+ dq +:+ ", "
      +:+ dq +:+ "recommendations" +:+ dq +:+ ": [" +:+ dq +:+ "Call the bank" +:+ dq +:+ "]}".

Definition text_vague_deadline : string :=
  "{" +:+ dq +:+ "deadline" +:+ dq +:+ ": " +:+ dq +:+ "next Friday" +:+ dq +:+ "}".

Definition text_true_priority : string :=
  "{" +:+ dq +:+ "priority_score" +:+ dq +:+ ": true}".

Definition more_replies : list (string * json) :=
  [ (text_null_category, JObj {[ "suggested_category" := JNull ]});
    (text_valid, JObj {[ "priority_score" := JInt 80;
                         "deadline" := JStr "2025-03-10 09:00:00";
                         "recommendations" := JList [JStr "Call the bank"] ]});
    (text_vague_deadline, JObj {[ "deadline" := JStr "next Friday" ]});
    (text_true_priority, JObj {[ "priority_score" := JBool true ]}) ].

Definition null_category_runtime : Runtime :=
  runtime [ApiContent text_null_category] more_replies.
Definition valid_runtime : Runtime := runtime [ApiContent text_valid] more_replies.
Definition vague_runtime : Runtime := runtime [ApiContent text_vague_deadline] more_replies.
Definition true_priority_runtime : Runtime :=
  runtime [ApiContent text_true_priority] more_replies.

(** A stored task without category, with fields from an earlier run. *)
Definition sample_record : Task :=
  {| title := "Pay rent";
     description := Some "Transfer to landlord"%string;
     category := None;
     priority_score := OVal (VJson (JInt 7));
     deadline := OVal (VDateTime (DateTime 2025 1 1 9 0 0 0));
     status := "pending";
     ai_suggestions := None |}.

(** A backend whose every request raises a JSON decode error (the client
    could not decode the answer of the server). *)
Definition decode_outage_runtime : Runtime := {|
  json_loads := table_loads replies;
  json_dumps := fun _ => "{}"%string;
  py_str := fun j => match j with JNull => "None" | _ => "0" end%string;
  int_of_str := parse_int;
  strptime := parse_deadline;
  datetime_now := sample_now;
  getenv := fun _ => None;
  chat_create := fun _ _ _ => ApiRaiseDecode "Expecting value: line 1 column 1 (char 0)"
|}.

(** A reply that is valid JSON but not an object. *)
Definition text_empty_list : string := "[]".

Definition list_reply_runtime : Runtime :=
  runtime [ApiContent text_empty_list] [ (text_empty_list, JList []) ].

(** A reply of 2000 opening brackets: the decoder exhausts the recursion
    limit before it finds the text incomplete. *)
Definition text_deep : string :=
  Nat.iter 2000 (String "["%char) EmptyString.

Definition crash_runtime : Runtime := {|
  json_loads := fun text =>
    if bool_decide (text = text_deep)
    then inr (DecodeCrash "maximum recursion depth exceeded while decoding a JSON array from a unicode string")
    else table_loads replies text;
  json_dumps := fun _ => "{}"%string;
  py_str := fun j => match j with JNull => "None" | _ => "0" end%string;
  int_of_str := parse_int;
  strptime := parse_deadline;
  datetime_now := sample_now;
  getenv := fun _ => None;
  chat_create := fun n _ _ => nth n [ApiContent text_deep] (ApiRaise "Connection error.")
|}.

(** The mapping of a run that returned. *)
Definition returned (run : result (gmap string outval) * list event) : gmap string outval :=
  match fst run with
  | Ok r => r
  | Raise _ => ∅
  end.

End Demo.

(** * Properties *)

Ltac run := unfold bind, ret, raise, lift, print, emit, try_except in *; simpl in *.

Section Dictionaries.
Context {V : Type}.
Implicit Types (s : gmap string V) (k : string).

Lemma dict_truthy_lookup s k v : s !! k = Some v -> dict_truthy s = true.
Proof.
  intros Hk. unfold dict_truthy. apply negb_true_iff, bool_decide_eq_false.
  intros Hsz. apply map_size_empty_iff in Hsz. subst s. by rewrite lookup_empty in Hk.
Qed.

Lemma dict_truthy_insert s k v : dict_truthy (<[k := v]> s) = true.
Proof. apply (dict_truthy_lookup _ k v), lookup_insert_eq. Qed.

Lemma contains_Some s k v : s !! k = Some v -> contains s k = true.
Proof. intros Hk. unfold contains. apply bool_decide_eq_true. by rewrite Hk. Qed.

Lemma contains_None s k : s !! k = None -> contains s k = false.
Proof.
  intros Hk. unfold contains. apply bool_decide_eq_false. rewrite Hk.
  by intros [? ?].
Qed.

Lemma dict_get_Some s k v d : s !! k = Some v -> dict_get s k d = v.
Proof. intros Hk. unfold dict_get. by rewrite Hk. Qed.

Lemma dict_get_None s k d : s !! k = None -> dict_get s k d = d.
Proof. intros Hk. unfold dict_get. by rewrite Hk. Qed.

End Dictionaries.

Section Steps.
Context `{RT : Runtime}.
Implicit Types (s : gmap string value) (t : list event).

(** [int] raises one of three exceptions. *)
Lemma py_int_raises v e :
  py_int v = Raise e -> e = ValueError \/ e = TypeError \/ e = OverflowError.
Proof.
  destruct v as [[| b | z | f | str | l | o] | dt]; simpl; try (intros [= <-]; auto).
  - destruct f; simpl; intros [= <-]; auto.
  - destruct (int_of_str str); intros [= <-]; auto.
Qed.

(** The only value on which [int] raises OverflowError is an infinite float. *)
Lemma py_int_overflow v :
  py_int v = Raise OverflowError <-> exists b, v = VJson (JFloat (S754_infinity b)).
Proof.
  split.
  - destruct v as [[| b | z | f | str | l | o] | dt]; simpl; try discriminate.
    + destruct f; simpl; try discriminate. eauto.
    + destruct (int_of_str str); discriminate.
  - intros [b ->]. reflexivity.
Qed.

Lemma clamp_range n : 1 <= clamp n <= 100.
Proof. unfold clamp. lia. Qed.

Lemma clamp_inside n : 1 <= n <= 100 -> clamp n = n.
Proof. unfold clamp. lia. Qed.

Lemma clamp_below n : n < 1 -> clamp n = 1.
Proof. unfold clamp. lia. Qed.

Lemma clamp_above n : 100 < n -> clamp n = 100.
Proof. unfold clamp. lia. Qed.

Lemma priority_step_absent s t :
  s !! "priority_score" = None -> priority_step s t = (Ok s, t).
Proof.
  intros Hk. unfold priority_step. rewrite (contains_None _ _ Hk), andb_false_r.
  reflexivity.
Qed.

Lemma priority_step_int s t v n :
  s !! "priority_score" = Some v -> py_int v = Ok n ->
  priority_step s t = (Ok (<["priority_score" := VJson (JInt (clamp n))]> s), t).
Proof.
  intros Hk Hn. unfold priority_step.
  rewrite (dict_truthy_lookup _ _ _ Hk), (contains_Some _ _ _ Hk). simpl.
  unfold getitem. rewrite Hk. run. rewrite Hn. simpl.
  by rewrite insert_insert_eq.
Qed.

Lemma priority_step_invalid s t v e :
  s !! "priority_score" = Some v -> py_int v = Raise e -> e <> OverflowError ->
  priority_step s t = (Ok (<["priority_score" := VJson (JInt 50)]> s), t).
Proof.
  intros Hk Hn He. unfold priority_step.
  rewrite (dict_truthy_lookup _ _ _ Hk), (contains_Some _ _ _ Hk). simpl.
  unfold getitem. rewrite Hk. run. rewrite Hn. simpl.
  destruct (py_int_raises _ _ Hn) as [-> | [-> | ->]]; done.
Qed.

Lemma priority_step_overflow s t b :
  s !! "priority_score" = Some (VJson (JFloat (S754_infinity b))) ->
  priority_step s t = (Raise OverflowError, t).
Proof.
  intros Hk. unfold priority_step.
  rewrite (dict_truthy_lookup _ _ _ Hk), (contains_Some _ _ _ Hk). simpl.
  unfold getitem. rewrite Hk. run. reflexivity.
Qed.

Lemma priority_step_cases s t :
  (s !! "priority_score" = None /\ priority_step s t = (Ok s, t))
  \/ (exists v n, s !! "priority_score" = Some v /\ py_int v = Ok n
        /\ priority_step s t = (Ok (<["priority_score" := VJson (JInt (clamp n))]> s), t))
  \/ (exists v e, s !! "priority_score" = Some v /\ py_int v = Raise e /\ e <> OverflowError
        /\ priority_step s t = (Ok (<["priority_score" := VJson (JInt 50)]> s), t))
  \/ (exists b, s !! "priority_score" = Some (VJson (JFloat (S754_infinity b)))
        /\ priority_step s t = (Raise OverflowError, t)).
Proof.
  destruct (s !! "priority_score") as [v|] eqn:Hk.
  - destruct (py_int v) as [n|e] eqn:Hn.
    + right; left. exists v, n. eauto using priority_step_int.
    + destruct (decide (e = OverflowError)) as [->|He].
      * apply py_int_overflow in Hn as [b ->].
        right; right; right. exists b. eauto using priority_step_overflow.
      * right; right; left. exists v, e. eauto using priority_step_invalid.
  - left. eauto using priority_step_absent.
Qed.

(** What a successful priority step leaves in the dictionary. *)
Lemma priority_step_inv s t s1 t1 :
  priority_step s t = (Ok s1, t1) ->
  t1 = t
  /\ (forall k, k <> "priority_score"%string -> s1 !! k = s !! k)
  /\ match s !! "priority_score" with
     | None => s1 !! "priority_score" = None
     | Some v => exists n, s1 !! "priority_score" = Some (VJson (JInt n))
                   /\ 1 <= n <= 100
                   /\ match py_int v with Ok m => n = clamp m | Raise _ => n = 50 end
     end.
Proof.
  intros Hrun.
  destruct (priority_step_cases s t)
    as [[Hk H] | [(v & n & Hk & Hn & H) | [(v & e & Hk & Hn & He & H) | (b & Hk & H)]]];
    rewrite H in Hrun; simplify_eq; rewrite Hk.
  - done.
  - split; [done|]. split; [intros k Hne; by rewrite lookup_insert_ne|].
    exists (clamp n). rewrite lookup_insert_eq, Hn. auto using clamp_range.
  - split; [done|]. split; [intros k Hne; by rewrite lookup_insert_ne|].
    exists 50. rewrite lookup_insert_eq, Hn. split; [done|]. split; [lia|done].
Qed.

(** The deadline step on a dictionary without a usable deadline. *)
Lemma deadline_step_falsy s t :
  value_truthy (dict_get s "deadline" (VJson JNull)) = false ->
  deadline_step s t = (Ok (<["deadline" := VJson JNull]> s), t).
Proof.
  intros Hf. unfold deadline_step. rewrite Hf, andb_false_r. reflexivity.
Qed.

Lemma deadline_step_truthy s t v :
  s !! "deadline" = Some v -> value_truthy v = true ->
  deadline_step s t =
    match v with
    | VJson (JStr text) =>
        match strptime text with
        | Some d => (Ok (<["deadline" := VDateTime d]> s), t)
        | None => (Ok (<["deadline" := VJson JNull]> s),
                   t ++ [EvPrint ("Warning: Could not parse AI suggested deadline: "
                                  +:+ text +:+ ". Setting a default.")])
        end
    | _ => (Raise TypeError, t)
    end.
Proof.
  intros Hk Hv. unfold deadline_step.
  rewrite (dict_truthy_lookup _ _ _ Hk), (contains_Some _ _ _ Hk),
    (dict_get_Some _ _ _ _ Hk), Hv, Hk. simpl.
  destruct v as [[| b | z | f | text | l | o] | dt]; try reflexivity.
  destruct (strptime text); reflexivity.
Qed.

Lemma default_deadline_step_null s t :
  default_deadline_step (<["deadline" := VJson JNull]> s) t =
  (Ok (<["deadline" := VDateTime (default_deadline datetime_now)]> s), t).
Proof.
  unfold default_deadline_step. rewrite dict_truthy_insert.
  unfold getitem. rewrite lookup_insert_eq. run. by rewrite insert_insert_eq.
Qed.

Lemma default_deadline_step_set s t d :
  default_deadline_step (<["deadline" := VDateTime d]> s) t =
  (Ok (<["deadline" := VDateTime d]> s), t).
Proof.
  unfold default_deadline_step. rewrite dict_truthy_insert.
  unfold getitem. rewrite lookup_insert_eq. reflexivity.
Qed.

(** Lines 175-189 together: either a TypeError, or a dictionary whose
    deadline is a timestamp; the only event is the warning of line 180. *)
Lemma deadline_steps_cases s t :
  (exists v, s !! "deadline" = Some v /\ value_truthy v = true
     /\ (forall text, v <> VJson (JStr text))
     /\ deadline_step s t = (Raise TypeError, t))
  \/ (exists s2 t2, deadline_step s t = (Ok s2, t2)
      /\ default_deadline_step s2 t2 =
           (Ok (<["deadline" := VDateTime (deadline_outcome (s !! "deadline"))]> s), t2)
      /\ calls_of t2 = calls_of t /\ requests_sent t2 = requests_sent t
      /\ (forall v, s !! "deadline" = Some v -> value_truthy v = true ->
          exists text, v = VJson (JStr text))).
Proof.
  destruct (s !! "deadline") as [v|] eqn:Hk.
  - destruct (value_truthy v) eqn:Hv.
    + pose proof (deadline_step_truthy s t v Hk Hv) as Hrun.
      destruct v as [[| b | z | f | text | l | o] | dt];
        try (left; eexists; split; [reflexivity|]; split; [exact Hv|];
             split; [discriminate | exact Hrun]).
      right. unfold deadline_outcome.
      assert (text <> ""%string) as Hne.
      { intros ->. vm_compute in Hv. done. }
      rewrite (bool_decide_eq_false_2 _ Hne).
      destruct (strptime text) as [d|]; simpl.
      * eexists _, _. split; [exact Hrun|].
        rewrite default_deadline_step_set. repeat split; try done.
        intros v' [= <-] _. eauto.
      * eexists _, _. split; [exact Hrun|].
        rewrite default_deadline_step_null. repeat split.
        -- unfold calls_of. by rewrite List.filter_app; simpl; rewrite ?app_nil_r.
        -- unfold requests_sent. by rewrite List.filter_app; simpl; rewrite ?app_nil_r.
        -- intros v' [= <-] _. eauto.
    + right. eexists _, _.
      split; [apply deadline_step_falsy; by rewrite (dict_get_Some _ _ _ _ Hk)|].
      rewrite default_deadline_step_null. repeat split.
      * f_equal. f_equal. f_equal. unfold deadline_outcome.
        destruct v as [[| b | z | f | text | l | o] | dt]; try done.
        simpl in Hv. apply negb_false_iff in Hv. by rewrite Hv.
      * intros v' [= <-] Hv'. congruence.
  - right. eexists _, _.
    split; [apply deadline_step_falsy; by rewrite (dict_get_None _ _ _ Hk)|].
    rewrite default_deadline_step_null. repeat split; done.
Qed.

Lemma recommendations_step_run s t :
  recommendations_step s t =
  (Ok (match s !! "recommendations" with
       | Some v => if isinstance_list v then s
                   else <["recommendations" := VJson (JList [])]> s
       | None => s
       end), t).
Proof.
  unfold recommendations_step.
  destruct (s !! "recommendations") as [v|] eqn:Hk.
  - rewrite (dict_truthy_lookup _ _ _ Hk), (contains_Some _ _ _ Hk),
      (dict_get_Some _ _ _ _ Hk). simpl.
    by destruct (isinstance_list v).
  - rewrite (contains_None _ _ Hk), andb_false_r. reflexivity.
Qed.

End Steps.

Section Adapter.
Context `{RT : Runtime}.
Implicit Types (t : list event) (self : AITaskManagement).

Lemma requests_sent_call t p m k :
  requests_sent (t ++ [EvCall p m k]) = requests_sent t.
Proof. unfold requests_sent. rewrite List.filter_app. simpl. by rewrite app_nil_r. Qed.

Lemma supported_test self :
  supported self ->
  bool_decide (api_choice self = "openai"%string)
  || bool_decide (api_choice self = "lm_studio"%string) = true.
Proof.
  intros [H | H]; rewrite H.
  - reflexivity.
  - apply orb_true_r.
Qed.

(** Line 58-60: without a client the adapter answers the empty dictionary. *)
Lemma call_llm_uninitialised self p m k t :
  the_client self = None ->
  _call_llm self p m k t =
  (Ok (JObj ∅), t ++ [EvCall p m k;
                      EvPrint "LLM client not initialized. Cannot make API call."]).
Proof.
  intros Hc. unfold _call_llm. rewrite Hc. run. by rewrite <- app_assoc.
Qed.

(** Lines 92-94: an exception of the backend becomes an "error" dictionary. *)
Lemma call_llm_backend_raises self c p m k t msg :
  the_client self = Some c -> supported self ->
  chat_create (requests_sent t) c (chat_request p m k) = ApiRaise msg ->
  _call_llm self p m k t =
  (Ok (JObj {[ "error" := JStr msg ]}),
   t ++ [EvCall p m k; EvRequest c (chat_request p m k);
         EvPrint ("Error calling LLM: " +:+ msg)]).
Proof.
  intros Hc Hs Hapi. unfold _call_llm. rewrite Hc, (supported_test _ Hs).
  run. unfold create_completion. rewrite requests_sent_call, Hapi. simpl.
  by rewrite <- !app_assoc.
Qed.

(** Line 74: a reply that decodes is returned as decoded. *)
Lemma call_llm_decoded self c p m k t text v :
  the_client self = Some c -> supported self ->
  chat_create (requests_sent t) c (chat_request p m k) = ApiContent text ->
  json_loads text = inl v ->
  _call_llm self p m k t =
  (Ok v, t ++ [EvCall p m k; EvRequest c (chat_request p m k)]).
Proof.
  intros Hc Hs Hapi Hdec. unfold _call_llm. rewrite Hc, (supported_test _ Hs).
  run. unfold create_completion. rewrite requests_sent_call, Hapi. simpl.
  unfold decode. rewrite Hdec. run. by rewrite <- !app_assoc.
Qed.

(** Lines 89-91: a reply on which the decoder raises its decode error. *)
Lemma call_llm_decode_error self c p m k t text msg :
  the_client self = Some c -> supported self ->
  chat_create (requests_sent t) c (chat_request p m k) = ApiContent text ->
  json_loads text = inr (DecodeError msg) ->
  _call_llm self p m k t =
  (Ok (JObj {[ "error" := JStr "JSON decoding failed"; "details" := JStr msg ]}),
   t ++ [EvCall p m k; EvRequest c (chat_request p m k);
         EvPrint ("Error decoding JSON from LLM response: " +:+ msg
                  +:+ ". Raw content: " +:+ text)]).
Proof.
  intros Hc Hs Hapi Hdec. unfold _call_llm. rewrite Hc, (supported_test _ Hs).
  run. unfold create_completion. rewrite requests_sent_call, Hapi. simpl.
  unfold decode. rewrite Hdec. run. by rewrite <- !app_assoc.
Qed.

(** Lines 92-94: a reply on which the decoder raises another exception. *)
Lemma call_llm_decode_crash self c p m k t text msg :
  the_client self = Some c -> supported self ->
  chat_create (requests_sent t) c (chat_request p m k) = ApiContent text ->
  json_loads text = inr (DecodeCrash msg) ->
  _call_llm self p m k t =
  (Ok (JObj {[ "error" := JStr msg ]}),
   t ++ [EvCall p m k; EvRequest c (chat_request p m k);
         EvPrint ("Error calling LLM: " +:+ msg)]).
Proof.
  intros Hc Hs Hapi Hdec. unfold _call_llm. rewrite Hc, (supported_test _ Hs).
  run. unfold create_completion. rewrite requests_sent_call, Hapi. simpl.
  unfold decode. rewrite Hdec. run. by rewrite <- !app_assoc.
Qed.

(** Lines 89-90: the request itself raises a JSON decode error; reading
    the unbound [response] raises UnboundLocalError before anything is
    printed. *)
Lemma call_llm_request_decode_error self c p m k t msg :
  the_client self = Some c -> supported self ->
  chat_create (requests_sent t) c (chat_request p m k) = ApiRaiseDecode msg ->
  _call_llm self p m k t =
  (Raise UnboundLocalError, t ++ [EvCall p m k; EvRequest c (chat_request p m k)]).
Proof.
  intros Hc Hs Hapi. unfold _call_llm. rewrite Hc, (supported_test _ Hs).
  run. unfold create_completion. rewrite requests_sent_call, Hapi. simpl.
  by rewrite <- !app_assoc.
Qed.

Lemma requests_sent_app t t' :
  requests_sent (t ++ t') = (requests_sent t + requests_sent t')%nat.
Proof. unfold requests_sent. by rewrite List.filter_app, length_app. Qed.

Lemma calls_of_app t t' : calls_of (t ++ t') = calls_of t ++ calls_of t'.
Proof. apply List.filter_app. Qed.

(** An invocation records itself once and sends at most one request; the
    only exception that leaves it is the UnboundLocalError of line 90,
    when the request itself raised a JSON decode error. *)
Lemma call_llm_total self p m k t :
  exists res t', _call_llm self p m k t = (res, t')
               /\ calls_of t' = calls_of t ++ [EvCall p m k]
               /\ (requests_sent t' <= S (requests_sent t))%nat
               /\ (forall e, res = Raise e ->
                   e = UnboundLocalError /\ request_decode_error self p m k t).
Proof.
  assert (forall (res : result json) tail r, r = (res, t ++ tail) ->
            calls_of tail = [EvCall p m k] ->
            (requests_sent tail <= 1)%nat ->
            (forall e, res = Raise e ->
               e = UnboundLocalError /\ request_decode_error self p m k t) ->
            exists res' t', r = (res', t')
               /\ calls_of t' = calls_of t ++ [EvCall p m k]
               /\ (requests_sent t' <= S (requests_sent t))%nat
               /\ (forall e, res' = Raise e ->
                   e = UnboundLocalError /\ request_decode_error self p m k t)) as Hdone.
  { intros res tail r -> Hc Hr He. eexists _, _. split; [reflexivity|].
    rewrite calls_of_app, requests_sent_app, Hc. split; [done|]. split; [lia|done]. }
  destruct (the_client self) as [c|] eqn:Hcl.
  - destruct (decide (supported self)) as [Hs|Hs].
    + destruct (chat_create (requests_sent t) c (chat_request p m k)) as [msg|msg|text] eqn:Hapi.
      * eapply Hdone; [by eapply call_llm_backend_raises | reflexivity
                       | unfold requests_sent; simpl; lia | done].
      * eapply Hdone; [by eapply call_llm_request_decode_error | reflexivity
                       | unfold requests_sent; simpl; lia |].
        intros e [= <-]. split; [done|]. by exists c, msg.
      * destruct (json_loads text) as [v|[msg|msg]] eqn:Hdec.
        -- eapply Hdone; [by eapply call_llm_decoded | reflexivity
                          | unfold requests_sent; simpl; lia | done].
        -- eapply Hdone; [by eapply call_llm_decode_error | reflexivity
                          | unfold requests_sent; simpl; lia | done].
        -- eapply Hdone; [by eapply call_llm_decode_crash | reflexivity
                          | unfold requests_sent; simpl; lia | done].
    + assert (bool_decide (api_choice self = "openai"%string)
              || bool_decide (api_choice self = "lm_studio"%string) = false) as Hno.
      { apply orb_false_iff. split; apply bool_decide_eq_false; intros H; apply Hs;
          [by left | by right]. }
      unfold _call_llm. rewrite Hcl, Hno. run.
      destruct (bool_decide (api_choice self = "claude"%string)); simpl.
      * eapply Hdone; [by rewrite <- !app_assoc | reflexivity
                       | unfold requests_sent; simpl; lia | done].
      * eapply Hdone; [reflexivity | reflexivity
                       | unfold requests_sent; simpl; lia | done].
  - eapply Hdone; [by eapply call_llm_uninitialised | reflexivity
                   | unfold requests_sent; simpl; lia | done].
Qed.

End Adapter.

Section PostProcessing.
Context `{RT : Runtime}.
Implicit Types (s : gmap string value) (t : list event) (c d : json).

Lemma build_result_dom c d s :
  dom (build_result c d s) =
  {[ "priority_score"; "deadline"; "suggested_category"; "enhanced_description";
     "recommendations"; "ai_raw_response" ]}.
Proof.
  unfold build_result. rewrite !dom_insert_L, dom_singleton_L. set_solver.
Qed.

Lemma build_result_priority c d s :
  build_result c d s !! "priority_score" =
  Some (OVal (dict_get s "priority_score" (VJson (JInt 50)))).
Proof. unfold build_result. by simplify_map_eq. Qed.

Lemma build_result_deadline c d s :
  build_result c d s !! "deadline" = Some (OVal (dict_get s "deadline" (VJson JNull))).
Proof. unfold build_result. by simplify_map_eq. Qed.

Lemma build_result_category c d s :
  build_result c d s !! "suggested_category" =
  Some (OVal (dict_get s "suggested_category" (VJson c))).
Proof. unfold build_result. by simplify_map_eq. Qed.

Lemma build_result_description c d s :
  build_result c d s !! "enhanced_description" =
  Some (OVal (dict_get s "enhanced_description" (VJson d))).
Proof. unfold build_result. by simplify_map_eq. Qed.

Lemma build_result_recommendations c d s :
  build_result c d s !! "recommendations" =
  Some (OVal (dict_get s "recommendations" (VJson (JList [])))).
Proof. unfold build_result. by simplify_map_eq. Qed.

(** The three ways lines 165-203 end on a dictionary: the OverflowError of
    line 169, the TypeError of line 178, or the returned mapping. *)
Lemma post_process_cases c d s t :
  (exists b, s !! "priority_score" = Some (VJson (JFloat (S754_infinity b)))
     /\ post_process c d s t = (Raise OverflowError, t))
  \/ (exists v, s !! "deadline" = Some v /\ value_truthy v = true
        /\ (forall text, v <> VJson (JStr text))
        /\ post_process c d s t = (Raise TypeError, t))
  \/ (exists s4 t',
        post_process c d s t = (Ok (build_result c d s4), t')
        /\ calls_of t' = calls_of t /\ requests_sent t' = requests_sent t
        /\ dict_get s4 "priority_score" (VJson (JInt 50)) = priority_outcome (s !! "priority_score")
        /\ s4 !! "deadline" = Some (VDateTime (deadline_outcome (s !! "deadline")))
        /\ dict_get s4 "recommendations" (VJson (JList []))
           = VJson (JList (recommendations_outcome (s !! "recommendations")))
        /\ s4 !! "suggested_category" = s !! "suggested_category"
        /\ s4 !! "enhanced_description" = s !! "enhanced_description"
        /\ (forall b, s !! "priority_score" <> Some (VJson (JFloat (S754_infinity b))))
        /\ (forall v, s !! "deadline" = Some v -> value_truthy v = true ->
            exists text, v = VJson (JStr text))).
Proof.
  unfold post_process.
  destruct (priority_step s t) as [[s1|e] t1] eqn:Hp.
  2:{ left.
      destruct (priority_step_cases s t)
        as [[Hk H] | [(v & n & Hk & Hn & H) | [(v & e' & Hk & Hn & He & H) | (b & Hk & H)]]];
        rewrite H in Hp; simplify_eq.
      exists b. split; [done|]. unfold bind. by rewrite H. }
  destruct (priority_step_inv _ _ _ _ Hp) as (-> & Hother & Hprio).
  assert (forall b, s !! "priority_score" <> Some (VJson (JFloat (S754_infinity b)))) as Hfin.
  { intros b Hk. rewrite (priority_step_overflow _ _ _ Hk) in Hp. discriminate. }
  assert (s1 !! "deadline" = s !! "deadline") as Hdl by (by apply Hother).
  assert (s1 !! "recommendations" = s !! "recommendations") as Hrec by (by apply Hother).
  assert (s1 !! "suggested_category" = s !! "suggested_category") as Hcat by (by apply Hother).
  assert (s1 !! "enhanced_description" = s !! "enhanced_description") as Hdesc
    by (by apply Hother).
  destruct (deadline_steps_cases s1 t)
    as [(v & Hk & Hv & Hns & Hd) | (s2 & t2 & Hd & Hdd & Hcalls & Hreq & Htext)].
  - right; left. exists v. rewrite <- Hdl. repeat split; try done.
    unfold bind. by rewrite Hp, Hd.
  - right; right.
    set (s3 := <["deadline" := VDateTime (deadline_outcome (s1 !! "deadline"))]> s1) in *.
    exists (match s3 !! "recommendations" with
            | Some v => if isinstance_list v then s3
                        else <["recommendations" := VJson (JList [])]> s3
            | None => s3
            end), t2.
    split.
    { unfold bind. rewrite Hp, Hd, Hdd, recommendations_step_run. reflexivity. }
    split; [done|]. split; [done|].
    assert (s3 !! "recommendations" = s !! "recommendations") as Hrec3.
    { unfold s3. by rewrite lookup_insert_ne. }
    assert (s3 !! "priority_score" = s1 !! "priority_score") as Hps3.
    { unfold s3. by rewrite lookup_insert_ne. }
    assert (s3 !! "deadline" = Some (VDateTime (deadline_outcome (s !! "deadline")))) as Hdl3.
    { unfold s3. by rewrite lookup_insert_eq, Hdl. }
    assert (s3 !! "suggested_category" = s !! "suggested_category") as Hcat3.
    { unfold s3. by rewrite lookup_insert_ne. }
    assert (s3 !! "enhanced_description" = s !! "enhanced_description") as Hdesc3.
    { unfold s3. by rewrite lookup_insert_ne. }
    clearbody s3.
    assert (dict_get s3 "priority_score" (VJson (JInt 50))
            = priority_outcome (s !! "priority_score")) as Hprio3.
    { unfold dict_get, priority_outcome. rewrite Hps3.
      destruct (s !! "priority_score") as [v|].
      - destruct Hprio as (n & -> & _ & Hn). simpl.
        destruct (py_int v); by subst.
      - by rewrite Hprio. }
    rewrite Hrec3. rewrite Hdl in Htext.
    destruct (s !! "recommendations") as [v|] eqn:Hr.
    + destruct (isinstance_list v) eqn:Hl.
      * repeat split; try done.
        unfold dict_get. rewrite Hrec3. simpl.
        destruct v as [[| b | z | f | text | l | o] | dt]; try discriminate. done.
      * unfold dict_get in *. rewrite !lookup_insert_eq.
        rewrite !lookup_insert_ne by done. repeat split; try done.
        simpl. destruct v as [[| b | z | f | text | l | o] | dt]; try done.
    + repeat split; try done. unfold dict_get. by rewrite Hrec3.
Qed.

End PostProcessing.

Section Orchestrator.
Context `{RT : Runtime}.
Implicit Types (self : AITaskManagement) (td : gmap string json)
  (ctx : list ContextEntry) (prefs : json) (load : Z) (t : list event).

(** [get_task_suggestions] is the post-processing of the reply. *)
Lemma get_task_suggestions_run self td ctx prefs load t :
  get_task_suggestions self td ctx prefs load t =
  match llm_layer self td ctx prefs load t with
  | (Ok (JObj o), t1) =>
      post_process (dict_get td "category" (JStr "Uncategorized"))
        (dict_get td "description" (JStr "")) (VJson <$> o) t1
  | (Ok _, t1) => (Raise TypeError, t1)
  | (Raise e, t1) => (Raise e, t1)
  end.
Proof.
  unfold get_task_suggestions, bind.
  destruct (llm_layer self td ctx prefs load t) as [[v|e] t1]; [|done].
  by destruct v.
Qed.

(** The post-processing makes no invocation and sends no request. *)
Lemma post_process_trace c d (s : gmap string value) t :
  calls_of (snd (post_process c d s t)) = calls_of t
  /\ requests_sent (snd (post_process c d s t)) = requests_sent t.
Proof.
  destruct (post_process_cases c d s t)
    as [(b & _ & ->) | [(v & _ & _ & _ & ->) | (s4 & t' & -> & Hc & Hr & _)]]; done.
Qed.

(** A returned mapping is built from a dictionary reply by lines 196-203. *)
Lemma get_task_suggestions_returns self td ctx prefs load t r t2 :
  get_task_suggestions self td ctx prefs load t = (Ok r, t2) ->
  exists o t1 s4,
    llm_layer self td ctx prefs load t = (Ok (JObj o), t1)
    /\ post_process (dict_get td "category" (JStr "Uncategorized"))
         (dict_get td "description" (JStr "")) (VJson <$> o) t1 = (Ok r, t2)
    /\ r = build_result (dict_get td "category" (JStr "Uncategorized"))
             (dict_get td "description" (JStr "")) s4.
Proof.
  rewrite get_task_suggestions_run.
  destruct (llm_layer self td ctx prefs load t) as [[v|e] t1]; [|done].
  destruct v as [| b | z | f | str | l | o]; try done.
  intros Hpp. exists o, t1.
  destruct (post_process_cases (dict_get td "category" (JStr "Uncategorized"))
              (dict_get td "description" (JStr "")) (VJson <$> o) t1)
    as [(b & _ & H) | [(v & _ & _ & _ & H) | (s4 & t' & H & _)]];
    rewrite H in Hpp; simplify_eq.
  exists s4. by rewrite H.
Qed.

Lemma context_summary_empty self t :
  context_summary self [] t = (Ok (JStr "No daily context available."), t).
Proof. reflexivity. Qed.

(** With context entries, the summary is one invocation of the adapter on
    the summary prompt, then a lookup with the fallback. *)
Lemma context_summary_nonempty self ctx t :
  ctx <> [] ->
  exists res t1,
    _call_llm self (context_summary_prompt_of (combined_context_of ctx))
      "gpt-3.5-turbo" 150 t = (res, t1)
    /\ calls_of t1 = calls_of t
         ++ [EvCall (context_summary_prompt_of (combined_context_of ctx)) "gpt-3.5-turbo" 150]
    /\ (requests_sent t1 <= S (requests_sent t))%nat
    /\ context_summary self ctx t =
       match res with
       | Ok (JObj o) =>
           (Ok (dict_get o "summary" (JStr (summary_fallback (combined_context_of ctx)))), t1)
       | Ok _ => (Raise AttributeError, t1)
       | Raise e => (Raise e, t1)
       end.
Proof.
  intros Hne. destruct ctx as [|c0 rest]; [done|].
  destruct (call_llm_total self
              (context_summary_prompt_of (combined_context_of (c0 :: rest)))
              "gpt-3.5-turbo" 150 t) as (res & t1 & Hcall & Hcalls & Hreq & _).
  exists res, t1. repeat split; try done.
  unfold context_summary, bind. rewrite Hcall.
  destruct res as [v|e]; [by destruct v | done].
Qed.

(** The three ways [get_task_suggestions] ends on a dictionary reply. *)
Lemma get_task_suggestions_cases self td ctx prefs load t o t1 :
  llm_layer self td ctx prefs load t = (Ok (JObj o), t1) ->
  (exists b, o !! "priority_score" = Some (JFloat (S754_infinity b))
     /\ get_task_suggestions self td ctx prefs load t = (Raise OverflowError, t1))
  \/ (exists v, o !! "deadline" = Some v /\ json_truthy v = true
        /\ (forall text, v <> JStr text)
        /\ get_task_suggestions self td ctx prefs load t = (Raise TypeError, t1))
  \/ (exists r t2,
        get_task_suggestions self td ctx prefs load t = (Ok r, t2)
        /\ calls_of t2 = calls_of t1 /\ requests_sent t2 = requests_sent t1
        /\ dom r = {[ "priority_score"; "deadline"; "suggested_category";
                      "enhanced_description"; "recommendations"; "ai_raw_response" ]}
        /\ r !! "priority_score"
           = Some (OVal (priority_outcome (VJson <$> o !! "priority_score")))
        /\ r !! "deadline"
           = Some (OVal (VDateTime (deadline_outcome (VJson <$> o !! "deadline"))))
        /\ r !! "suggested_category"
           = Some (OVal (VJson (dict_get o "suggested_category"
                                  (dict_get td "category" (JStr "Uncategorized")))))
        /\ r !! "enhanced_description"
           = Some (OVal (VJson (dict_get o "enhanced_description"
                                  (dict_get td "description" (JStr "")))))
        /\ r !! "recommendations"
           = Some (OVal (VJson (JList (recommendations_outcome
                                         (VJson <$> o !! "recommendations")))))
        /\ (forall b, o !! "priority_score" <> Some (JFloat (S754_infinity b)))
        /\ (forall v, o !! "deadline" = Some v -> json_truthy v = true ->
            exists text, v = JStr text)).
Proof.
  intros Hllm. rewrite get_task_suggestions_run, Hllm.
  destruct (post_process_cases (dict_get td "category" (JStr "Uncategorized"))
              (dict_get td "description" (JStr "")) (VJson <$> o) t1)
    as [(b & Hk & H) | [(v & Hk & Hv & Hns & H) |
        (s4 & t2 & H & Hc & Hr & Hps & Hdl & Hrec & Hcat & Hdesc & Hfin & Htext)]];
    rewrite lookup_fmap in *.
  - left. exists b. split; [|done].
    destruct (o !! "priority_score") as [j|]; simplify_eq/=. done.
  - right; left.
    destruct (o !! "deadline") as [j|] eqn:Hj; simplify_eq/=.
    exists j. repeat split; try done. intros text ->. by apply (Hns text).
  - right; right. exists (build_result (dict_get td "category" (JStr "Uncategorized"))
                            (dict_get td "description" (JStr "")) s4), t2.
    rewrite build_result_dom, build_result_priority, build_result_deadline,
      build_result_category, build_result_description, build_result_recommendations.
    rewrite Hps, Hrec, (dict_get_Some _ _ _ _ Hdl).
    unfold dict_get. rewrite Hcat, Hdesc, ?lookup_fmap.
    repeat split; try done.
    + by destruct (o !! "suggested_category").
    + by destruct (o !! "enhanced_description").
    + intros b Hk. apply (Hfin b). by rewrite ?lookup_fmap, Hk.
    + intros v Hk Hv. destruct (Htext (VJson v)) as [text Heq].
      * by rewrite ?lookup_fmap, Hk.
      * done.
      * exists text. by simplify_eq.
Qed.

(** The reply of the LLM layer when the adapter has no client. *)
Lemma llm_layer_uninitialised self td ctx prefs load t :
  the_client self = None ->
  exists t1, llm_layer self td ctx prefs load t = (Ok (JObj ∅), t1).
Proof.
  intros Hc. unfold llm_layer, bind.
  destruct ctx as [|c0 rest].
  - rewrite context_summary_empty, call_llm_uninitialised by done. eauto.
  - unfold context_summary, bind. rewrite call_llm_uninitialised by done.
    run. rewrite call_llm_uninitialised by done. eauto.
Qed.

(** The reply of the LLM layer when every request raises. *)
Lemma llm_layer_outage self td ctx prefs load t c :
  the_client self = Some c -> supported self ->
  (forall n c' r, exists msg, chat_create n c' r = ApiRaise msg) ->
  exists msg t1,
    llm_layer self td ctx prefs load t = (Ok (JObj {[ "error" := JStr msg ]}), t1).
Proof.
  intros Hc Hs Hout. unfold llm_layer, bind.
  assert (forall p m k t0, exists msg t1,
            _call_llm self p m k t0 = (Ok (JObj {[ "error" := JStr msg ]}), t1)) as Hcall.
  { intros p m k t0. destruct (Hout (requests_sent t0) c (chat_request p m k)) as [msg Hm].
    exists msg. eexists. by apply call_llm_backend_raises. }
  destruct ctx as [|c0 rest].
  - rewrite context_summary_empty. apply Hcall.
  - unfold context_summary, bind.
    destruct (Hcall (context_summary_prompt_of (combined_context_of (c0 :: rest)))
                "gpt-3.5-turbo"%string 150 t) as (msg & t1 & ->).
    run. apply Hcall.
Qed.

(** Every failure of the adapter yields a dictionary with at most the keys
    "error" and "details". *)
Lemma call_llm_failure_value self p m k t key :
  llm_call_fails self p m k t ->
  key <> "error"%string -> key <> "details"%string ->
  exists o t1, _call_llm self p m k t = (Ok (JObj o), t1) /\ o !! key = None.
Proof.
  intros [Hc | (c & Hc & Hs & [[msg Hm] | (text & [msg|msg] & Hm & Hd)])] Hk1 Hk2.
  - eexists _, _. split; [by apply call_llm_uninitialised|]. apply lookup_empty.
  - eexists _, _. split; [by eapply call_llm_backend_raises|].
    by rewrite lookup_singleton_ne.
  - eexists _, _. split; [by eapply call_llm_decode_error|].
    rewrite lookup_insert_ne by done. by rewrite lookup_singleton_ne.
  - eexists _, _. split; [by eapply call_llm_decode_crash|].
    by rewrite lookup_singleton_ne.
Qed.

(** The trace of [get_task_suggestions] has the invocations and requests
    of its LLM layer. *)
Lemma get_task_suggestions_trace self td ctx prefs load t :
  calls_of (snd (get_task_suggestions self td ctx prefs load t))
  = calls_of (snd (llm_layer self td ctx prefs load t))
  /\ requests_sent (snd (get_task_suggestions self td ctx prefs load t))
     = requests_sent (snd (llm_layer self td ctx prefs load t)).
Proof.
  rewrite get_task_suggestions_run.
  destruct (llm_layer self td ctx prefs load t) as [[v|e] t1]; [|done].
  destruct v; try done. apply post_process_trace.
Qed.

(** The invocations of the LLM layer. *)
Lemma llm_layer_calls_empty self td prefs load t :
  calls_of (snd (llm_layer self td [] prefs load t))
  = calls_of t
    ++ [EvCall (suggestion_prompt (dict_get td "title" (JStr ""))
                  (dict_get td "description" (JStr ""))
                  (dict_get td "category" (JStr "Uncategorized"))
                  (JStr "No daily context available.") prefs load)
          "gpt-4o-mini" 400]
  /\ (requests_sent (snd (llm_layer self td [] prefs load t)) <= S (requests_sent t))%nat.
Proof.
  unfold llm_layer, bind. rewrite context_summary_empty.
  destruct (call_llm_total self
              (suggestion_prompt (dict_get td "title" (JStr ""))
                 (dict_get td "description" (JStr ""))
                 (dict_get td "category" (JStr "Uncategorized"))
                 (JStr "No daily context available.") prefs load)
              "gpt-4o-mini" 400 t) as (res & t1 & -> & Hc & Hr & _).
  done.
Qed.

Lemma llm_layer_calls_nonempty self td ctx prefs load t :
  ctx <> [] ->
  exists rest,
    calls_of (snd (llm_layer self td ctx prefs load t))
    = calls_of t
      ++ EvCall (context_summary_prompt_of (combined_context_of ctx)) "gpt-3.5-turbo" 150
         :: rest
    /\ (rest = [] \/ exists p, rest = [EvCall p "gpt-4o-mini" 400]).
Proof.
  intros Hne.
  destruct (context_summary_nonempty self ctx t Hne) as (res & t1 & _ & Hc & _ & Hsum).
  unfold llm_layer, bind. rewrite Hsum.
  destruct res as [[| b | z | f | str | l | o] | e];
    try (exists []; simpl; rewrite Hc; split; [done | by left]).
  match goal with
  | |- context [ _call_llm self ?p ?m ?k t1 ] =>
      destruct (call_llm_total self p m k t1) as (v2 & t2 & -> & Hc2 & _);
      exists [EvCall p m k]
  end.
  simpl. rewrite Hc2, Hc, <- app_assoc. split; [done|]. right. eauto.
Qed.

End Orchestrator.

(** ** The primitives on concrete values *)

(** The default deadline crosses the end of a month and of a year, and
    knows leap years. *)
Example default_deadline_march :
  default_deadline (DateTime 2025 3 7 10 30 15 123456) = DateTime 2025 3 10 17 0 0 0.
Proof. reflexivity. Qed.

Example default_deadline_february :
  default_deadline (DateTime 2025 2 27 23 59 59 0) = DateTime 2025 3 2 17 0 0 0.
Proof. reflexivity. Qed.

Example default_deadline_leap_february :
  default_deadline (DateTime 2024 2 27 8 0 0 0) = DateTime 2024 3 1 17 0 0 0.
Proof. reflexivity. Qed.

Example default_deadline_new_year :
  default_deadline (DateTime 2025 12 30 8 0 0 0) = DateTime 2026 1 2 17 0 0 0.
Proof. reflexivity. Qed.

Lemma default_deadline_time now :
  hour (default_deadline now) = 17 /\ minute (default_deadline now) = 0
  /\ second (default_deadline now) = 0 /\ microsecond (default_deadline now) = 0.
Proof. done. Qed.

(** [int] on floats: 75.5 is 151 * 2^-1, -0.75 is -(3 * 2^-2), 96.0 is 3 * 2^5. *)
Example int_of_float_truncates :
  int_of_float (S754_finite false 151 (-1)) = Ok 75
  /\ int_of_float (S754_finite true 3 (-2)) = Ok 0
  /\ int_of_float (S754_finite false 3 5) = Ok 96
  /\ int_of_float (S754_finite true 151 (-1)) = Ok (-75)
  /\ int_of_float S754_nan = Raise ValueError
  /\ int_of_float (S754_infinity true) = Raise OverflowError.
Proof. repeat split. Qed.

Example clamp_values : clamp (-5) = 1 /\ clamp 0 = 1 /\ clamp 42 = 42 /\ clamp 250 = 100.
Proof. repeat split. Qed.

(** [s[:n]] keeps a short text whole. *)
Example str_take_values :
  str_take 3 "context" = "con"%string /\ str_take 200 "context" = "context"%string.
Proof. split; reflexivity. Qed.

Lemma str_take_length n text : (String.length (str_take n text) <= n)%nat.
Proof.
  revert text. induction n as [|n IH]; intros [|a text]; simpl; try lia.
  specialize (IH text). lia.
Qed.

(** The fallback summary never exceeds 203 characters. *)
Lemma summary_fallback_length combined :
  (String.length (summary_fallback combined) <= 203)%nat.
Proof.
  unfold summary_fallback.
  assert (forall a b, String.length (a +:+ b) = (String.length a + String.length b)%nat) as Happ.
  { induction a as [|ch a IH]; intros b; simpl; [done|]. by rewrite IH. }
  rewrite Happ. pose proof (str_take_length 200 combined) as Hlen.
  set (kept := str_take 200 combined) in *. simpl. lia.
Qed.

(** * The claims *)

Section Claims.
Context `{RT : Runtime}.
Implicit Types (self : AITaskManagement) (td : gmap string json)
  (ctx : list ContextEntry) (prefs : json) (load : Z) (t : list event).

(** C1.  The claim fails on a reply whose priority_score is an infinite
    float (what the decoder makes of 1e999 or Infinity): the coercion of
    line 169 raises OverflowError, which the handler of line 171 does not
    catch, so [get_task_suggestions] raises instead of returning a record
    whose priority is 50 or a clamped bound. *)
Theorem priority_score_infinity_escapes self td ctx prefs load t o t1 b :
  llm_layer self td ctx prefs load t = (Ok (JObj o), t1) ->
  o !! "priority_score" = Some (JFloat (S754_infinity b)) ->
  get_task_suggestions self td ctx prefs load t = (Raise OverflowError, t1).
Proof.
  intros Hllm Hk.
  destruct (get_task_suggestions_cases self td ctx prefs load t o t1 Hllm)
    as [(b' & _ & H) | [(v & Hd & Hv & Hns & H) | (r & t2 & _ & _ & _ & _ & _ & _ & _ & _ & _ & Hfin & _)]].
  - done.
  - rewrite get_task_suggestions_run, Hllm. unfold post_process, bind.
    by rewrite (priority_step_overflow _ _ b) by (by rewrite lookup_fmap, Hk).
  - by destruct (Hfin b).
Qed.

(** Whenever a record is returned, its priority_score is an integer in
    [1,100]: 50 when the field is absent or its coercion fails, the
    clamped integer otherwise. *)
Theorem priority_score_in_range self td ctx prefs load t o t1 r t2 :
  llm_layer self td ctx prefs load t = (Ok (JObj o), t1) ->
  get_task_suggestions self td ctx prefs load t = (Ok r, t2) ->
  exists n, r !! "priority_score" = Some (OVal (VJson (JInt n)))
            /\ 1 <= n <= 100
            /\ match o !! "priority_score" with
               | None => n = 50
               | Some v => match py_int (VJson v) with
                           | Ok m => n = Z.max 1 (Z.min 100 m)
                           | Raise _ => n = 50
                           end
               end.
Proof.
  intros Hllm Hrun.
  destruct (get_task_suggestions_cases self td ctx prefs load t o t1 Hllm)
    as [(b' & _ & H) | [(v & _ & _ & _ & H) | (r' & t' & H & _ & _ & _ & Hps & _)]];
    rewrite H in Hrun; simplify_eq.
  rewrite Hps. unfold priority_outcome.
  destruct (o !! "priority_score") as [v|]; cbn -[py_int].
  - destruct (py_int (VJson v)) as [m|e].
    + exists (clamp m). split; [done|]. split; [apply clamp_range | done].
    + exists 50. split; [done|]. split; [lia | done].
  - exists 50. split; [done|]. split; [lia | done].
Qed.

(** C2.  The claim fails on a reply whose deadline is a true value that is
    not text (a number, [true], a non-empty list or object):
    [datetime.strptime] raises TypeError, which the handler of line 179
    does not catch, so [get_task_suggestions] raises instead of returning
    a record with the default deadline. *)
Theorem deadline_not_text_escapes self td ctx prefs load t o t1 v :
  llm_layer self td ctx prefs load t = (Ok (JObj o), t1) ->
  o !! "deadline" = Some v -> json_truthy v = true -> (forall text, v <> JStr text) ->
  exists e, get_task_suggestions self td ctx prefs load t = (Raise e, t1)
            /\ (e = TypeError \/ e = OverflowError).
Proof.
  intros Hllm Hk Hv Hns.
  destruct (get_task_suggestions_cases self td ctx prefs load t o t1 Hllm)
    as [(b' & _ & H) | [(v' & _ & _ & _ & H) | (r & t2 & _ & _ & _ & _ & _ & _ & _ & _ & _ & _ & Htext)]].
  - exists OverflowError. auto.
  - exists TypeError. auto.
  - destruct (Htext v Hk Hv) as [text ->]. by destruct (Hns text).
Qed.

(** Whenever a record is returned, its deadline is a timestamp: the parsed
    one when the reply gave a text that [strptime] accepts, and otherwise
    (absent, null, empty or unparsable text) three days from now at
    17:00:00.000000. *)
Theorem deadline_never_unset self td ctx prefs load t o t1 r t2 :
  llm_layer self td ctx prefs load t = (Ok (JObj o), t1) ->
  get_task_suggestions self td ctx prefs load t = (Ok r, t2) ->
  exists d, r !! "deadline" = Some (OVal (VDateTime d))
            /\ (forall text parsed, o !! "deadline" = Some (JStr text) ->
                text <> ""%string -> strptime text = Some parsed -> d = parsed)
            /\ (forall text, o !! "deadline" = Some (JStr text) ->
                strptime text = None -> d = replace_time (add_days 3 datetime_now) 17 0 0 0)
            /\ (o !! "deadline" = None ->
                d = replace_time (add_days 3 datetime_now) 17 0 0 0)
            /\ (forall v, o !! "deadline" = Some v -> json_truthy v = false ->
                d = replace_time (add_days 3 datetime_now) 17 0 0 0).
Proof.
  intros Hllm Hrun.
  destruct (get_task_suggestions_cases self td ctx prefs load t o t1 Hllm)
    as [(b' & _ & H) | [(v & _ & _ & _ & H) | (r' & t' & H & _ & _ & _ & _ & Hdl & _)]];
    rewrite H in Hrun; simplify_eq.
  eexists. split; [exact Hdl|]. unfold deadline_outcome. repeat split.
  - intros text parsed -> Hne Hp. simpl.
    by rewrite (bool_decide_eq_false_2 _ Hne), Hp.
  - intros text -> Hp. simpl. rewrite Hp. by case_bool_decide.
  - by intros ->.
  - intros v -> Hv. simpl.
    destruct v as [| b | z | f | text | l | o']; try done.
    simpl in Hv. apply negb_false_iff in Hv. by rewrite Hv.
Qed.

(** C3.  The claim fails when the exception that every request raises is
    a JSON decode error: the handler of line 89 reads [response], which
    line 63 never bound, so UnboundLocalError leaves [_call_llm] and
    [get_task_suggestions] instead of the all-default record. *)
Theorem outage_decode_error_escapes self td ctx prefs load t c :
  the_client self = Some c -> supported self ->
  (forall n c' r, exists msg, chat_create n c' r = ApiRaiseDecode msg) ->
  exists t', get_task_suggestions self td ctx prefs load t = (Raise UnboundLocalError, t')
             /\ (requests_sent t' = S (requests_sent t))%nat.
Proof.
  intros Hc Hs Hout.
  assert (forall p m k t0,
            _call_llm self p m k t0
            = (Raise UnboundLocalError, t0 ++ [EvCall p m k; EvRequest c (chat_request p m k)]))
    as Hcall.
  { intros p m k t0. destruct (Hout (requests_sent t0) c (chat_request p m k)) as [msg Hm].
    by eapply call_llm_request_decode_error. }
  rewrite get_task_suggestions_run. unfold llm_layer, bind.
  destruct ctx as [|c0 rest].
  - rewrite context_summary_empty, Hcall. eexists. split; [reflexivity|].
    rewrite requests_sent_app. unfold requests_sent. simpl. lia.
  - unfold context_summary, bind. rewrite Hcall. eexists. split; [reflexivity|].
    rewrite requests_sent_app. unfold requests_sent. simpl. lia.
Qed.

(** When every request raises an exception other than a JSON decode
    error, [get_task_suggestions] returns a record with priority_score
    50, the task's own category and description, no recommendations, and
    the deadline three days from now at 17:00. *)
Theorem total_outage_defaults self td ctx prefs load t c :
  the_client self = Some c -> supported self ->
  (forall n c' r, exists msg, chat_create n c' r = ApiRaise msg) ->
  exists r t',
    get_task_suggestions self td ctx prefs load t = (Ok r, t')
    /\ r !! "priority_score" = Some (OVal (VJson (JInt 50)))
    /\ r !! "suggested_category"
       = Some (OVal (VJson (dict_get td "category" (JStr "Uncategorized"))))
    /\ r !! "enhanced_description"
       = Some (OVal (VJson (dict_get td "description" (JStr ""))))
    /\ r !! "recommendations" = Some (OVal (VJson (JList [])))
    /\ r !! "deadline"
       = Some (OVal (VDateTime (replace_time (add_days 3 datetime_now) 17 0 0 0)))
    /\ (forall cat, td !! "category" = Some cat ->
        r !! "suggested_category" = Some (OVal (VJson cat)))
    /\ (forall desc, td !! "description" = Some desc ->
        r !! "enhanced_description" = Some (OVal (VJson desc))).
Proof.
  intros Hc Hs Hout.
  destruct (llm_layer_outage self td ctx prefs load t c Hc Hs Hout) as (msg & t1 & Hllm).
  destruct (get_task_suggestions_cases self td ctx prefs load t _ t1 Hllm)
    as [(b' & Hk & _) | [(v & Hk & _) |
        (r & t2 & H & _ & _ & _ & Hps & Hdl & Hcat & Hdesc & Hrec & _)]].
  - by rewrite lookup_singleton_ne in Hk.
  - by rewrite lookup_singleton_ne in Hk.
  - exists r, t2. split; [done|].
    rewrite lookup_singleton_ne in Hps, Hdl, Hrec by done.
    unfold dict_get at 1 in Hcat. unfold dict_get at 1 in Hdesc.
    rewrite lookup_singleton_ne in Hcat, Hdesc by done. simpl in *.
    repeat split; try done.
    + intros cat Hk. by rewrite Hcat, (dict_get_Some _ _ _ _ Hk).
    + intros desc Hk. by rewrite Hdesc, (dict_get_Some _ _ _ _ Hk).
Qed.

(** C4.  With no context entry the summary is the literal text
    "No daily context available." and nothing is recorded for it; the whole
    run invokes the adapter exactly once, for the suggestion prompt built
    from that text (model gpt-4o-mini, 400 tokens), and sends at most one
    request. *)
Theorem empty_context_single_call self td prefs load t :
  context_summary self [] t = (Ok (JStr "No daily context available."), t)
  /\ calls_of (snd (get_task_suggestions self td [] prefs load t))
     = calls_of t
       ++ [EvCall (suggestion_prompt (dict_get td "title" (JStr ""))
                     (dict_get td "description" (JStr ""))
                     (dict_get td "category" (JStr "Uncategorized"))
                     (JStr "No daily context available.") prefs load)
             "gpt-4o-mini" 400]
  /\ (requests_sent (snd (get_task_suggestions self td [] prefs load t))
      <= S (requests_sent t))%nat.
Proof.
  split; [reflexivity|].
  destruct (get_task_suggestions_trace self td [] prefs load t) as [-> ->].
  apply llm_layer_calls_empty.
Qed.

(** C5.  The claim fails: the summary step does raise.  A summary reply
    that decodes to a value other than a dictionary (the list of the text
    "[]", a number, a string, null) has no "summary" key, and the [.get]
    of line 131 raises AttributeError on it; and when the summary request
    itself raises a JSON decode error, UnboundLocalError leaves the call.
    In both cases [get_task_suggestions] raises and no fallback text is
    used. *)
Theorem summary_failure_escapes self td ctx prefs load t :
  ctx <> [] ->
  (forall v t1,
     _call_llm self (context_summary_prompt_of (combined_context_of ctx))
       "gpt-3.5-turbo" 150 t = (Ok v, t1) ->
     (forall o, v <> JObj o) ->
     context_summary self ctx t = (Raise AttributeError, t1)
     /\ get_task_suggestions self td ctx prefs load t = (Raise AttributeError, t1))
  /\ (request_decode_error self (context_summary_prompt_of (combined_context_of ctx))
        "gpt-3.5-turbo" 150 t ->
      exists t1,
        context_summary self ctx t = (Raise UnboundLocalError, t1)
        /\ get_task_suggestions self td ctx prefs load t = (Raise UnboundLocalError, t1)).
Proof.
  intros Hne. destruct ctx as [|c0 rest]; [done|]. split.
  - intros v t1 Hcall Hv.
    assert (context_summary self (c0 :: rest) t = (Raise AttributeError, t1)) as Hsum.
    { unfold context_summary, bind. rewrite Hcall.
      destruct v as [| b | z | f | str | l | o]; try done. by destruct (Hv o). }
    split; [exact Hsum|].
    rewrite get_task_suggestions_run. unfold llm_layer, bind. by rewrite Hsum.
  - intros (c & msg & Hc & Hs & Hapi).
    assert (context_summary self (c0 :: rest) t
            = (Raise UnboundLocalError,
               t ++ [EvCall (context_summary_prompt_of (combined_context_of (c0 :: rest)))
                       "gpt-3.5-turbo" 150;
                     EvRequest c (chat_request
                                    (context_summary_prompt_of (combined_context_of (c0 :: rest)))
                                    "gpt-3.5-turbo" 150)])) as Hsum.
    { unfold context_summary, bind.
      by rewrite (call_llm_request_decode_error _ _ _ _ _ _ _ Hc Hs Hapi). }
    eexists. split; [exact Hsum|].
    rewrite get_task_suggestions_run. unfold llm_layer, bind. by rewrite Hsum.
Qed.

(** With context entries, when the summary invocation fails in a way the
    adapter turns into a value (no client, an exception of the request
    other than a JSON decode error, a reply on which the decoder fails)
    or answers a dictionary without a "summary" key, the summary is the
    first 200 characters of the concatenated context followed by "...",
    and that text is what the suggestion prompt embeds. *)
Theorem summary_falls_back self td ctx prefs load t :
  ctx <> [] ->
  let combined := combined_context_of ctx in
  let fallback := JStr (str_take 200 combined +:+ "...") in
  (forall o t1,
     _call_llm self (context_summary_prompt_of combined) "gpt-3.5-turbo" 150 t
       = (Ok (JObj o), t1) ->
     o !! "summary" = None ->
     context_summary self ctx t = (Ok fallback, t1)
     /\ llm_layer self td ctx prefs load t
        = _call_llm self
            (suggestion_prompt (dict_get td "title" (JStr ""))
               (dict_get td "description" (JStr ""))
               (dict_get td "category" (JStr "Uncategorized")) fallback prefs load)
            "gpt-4o-mini" 400 t1)
  /\ (llm_call_fails self (context_summary_prompt_of combined) "gpt-3.5-turbo" 150 t ->
      exists t1, context_summary self ctx t = (Ok fallback, t1)).
Proof.
  intros Hne combined fallback.
  assert (forall o t1,
     _call_llm self (context_summary_prompt_of combined) "gpt-3.5-turbo" 150 t
       = (Ok (JObj o), t1) ->
     o !! "summary" = None ->
     context_summary self ctx t = (Ok fallback, t1)) as Hsum.
  { intros o t1 Hcall Hk. destruct ctx as [|c0 rest]; [done|].
    unfold context_summary, bind. fold combined. rewrite Hcall.
    by rewrite (dict_get_None _ _ _ Hk). }
  split.
  - intros o t1 Hcall Hk. split; [by eapply Hsum|].
    unfold llm_layer, bind. by rewrite (Hsum o t1 Hcall Hk).
  - intros Hfail.
    destruct (call_llm_failure_value _ _ _ _ _ "summary" Hfail) as (o & t1 & Hcall & Hk);
      [done | done |].
    exists t1. by eapply Hsum.
Qed.

(** C6 (amended).  With context entries, the concatenated context is the
    lines "Source: <source_type>: <content>", one per entry in input order
    and joined by newlines; the run invokes the adapter for the summary
    exactly once, first, on the prompt that embeds this text, with model
    gpt-3.5-turbo and a budget of 150 tokens; the only other invocation is
    the suggestion call (400 tokens); and a client that reaches the
    backend sends that prompt in a request with max_tokens 150. *)
Theorem summary_call_shape self td ctx prefs load t :
  ctx <> [] ->
  let combined :=
    str_join nl (map (fun c => "Source: " +:+ source_type c +:+ ": " +:+ content c) ctx) in
  let prompt := context_summary_prompt_of combined in
  (exists rest,
     calls_of (snd (get_task_suggestions self td ctx prefs load t))
     = calls_of t ++ EvCall prompt "gpt-3.5-turbo" 150 :: rest
     /\ (rest = [] \/ exists p, rest = [EvCall p "gpt-4o-mini" 400]))
  /\ (forall c, the_client self = Some c -> supported self ->
      exists tail,
        snd (context_summary self ctx t)
        = t ++ EvCall prompt "gpt-3.5-turbo" 150
            :: EvRequest c (chat_request prompt "gpt-3.5-turbo" 150) :: tail
        /\ calls_of tail = [] /\ requests_sent tail = 0%nat
        /\ req_max_tokens (chat_request prompt "gpt-3.5-turbo" 150) = 150
        /\ req_user (chat_request prompt "gpt-3.5-turbo" 150) = prompt).
Proof.
  intros Hne combined prompt. split.
  - destruct (get_task_suggestions_trace self td ctx prefs load t) as [-> _].
    by apply llm_layer_calls_nonempty.
  - intros c Hc Hs. destruct ctx as [|c0 rest]; [done|].
    unfold context_summary, bind.
    change (context_summary_prompt_of (combined_context_of (c0 :: rest))) with prompt.
    destruct (chat_create (requests_sent t) c (chat_request prompt "gpt-3.5-turbo" 150))
      as [msg|msg|text] eqn:Hapi.
    + rewrite (call_llm_backend_raises _ _ _ _ _ _ _ Hc Hs Hapi). simpl.
      eexists [_]. repeat split.
    + rewrite (call_llm_request_decode_error _ _ _ _ _ _ _ Hc Hs Hapi). simpl.
      by exists [].
    + destruct (json_loads text) as [v|[msg|msg]] eqn:Hdec.
      * rewrite (call_llm_decoded _ _ _ _ _ _ _ _ Hc Hs Hapi Hdec).
        exists []. by destruct v.
      * rewrite (call_llm_decode_error _ _ _ _ _ _ _ _ Hc Hs Hapi Hdec). simpl.
        eexists [_]. repeat split.
      * rewrite (call_llm_decode_crash _ _ _ _ _ _ _ _ Hc Hs Hapi Hdec). simpl.
        eexists [_]. repeat split.
Qed.

(** C7.  For a dictionary reply, any record that is returned has a list
    under "recommendations": the list of the reply when it gave one, the
    empty list when the field is absent or is not a list; and a record is
    returned whenever the priority is not an infinite float and the
    deadline is absent, false or text. *)
Theorem recommendations_always_list self td ctx prefs load t o t1 :
  llm_layer self td ctx prefs load t = (Ok (JObj o), t1) ->
  (forall r t2,
     get_task_suggestions self td ctx prefs load t = (Ok r, t2) ->
     r !! "recommendations"
     = Some (OVal (VJson (JList (match o !! "recommendations" with
                                 | Some (JList l) => l
                                 | _ => []
                                 end)))))
  /\ ((forall b, o !! "priority_score" <> Some (JFloat (S754_infinity b))) ->
      (forall v, o !! "deadline" = Some v -> json_truthy v = true ->
                 exists text, v = JStr text) ->
      exists r t2, get_task_suggestions self td ctx prefs load t = (Ok r, t2)).
Proof.
  intros Hllm.
  destruct (get_task_suggestions_cases self td ctx prefs load t o t1 Hllm)
    as [(b & Hk & H) | [(v & Hk & Hv & Hns & H) |
        (r' & t' & H & _ & _ & _ & _ & _ & _ & _ & Hrec & _)]].
  - split; [intros r t2 Hrun; by rewrite H in Hrun|].
    intros Hfin _. by destruct (Hfin b).
  - split; [intros r t2 Hrun; by rewrite H in Hrun|].
    intros _ Htext. destruct (Htext v Hk Hv) as [text ->]. by destruct (Hns text).
  - split; [|by eauto].
    intros r t2 Hrun. rewrite H in Hrun. simplify_eq. rewrite Hrec.
    destruct (o !! "recommendations") as [[| b | z | f | text | l | o']|]; reflexivity.
Qed.

(** C8 (amended).  When [json.loads] fails on the reply, [_call_llm] does
    not raise, and the value it returns carries the message of the
    failure but never the raw text: for a JSON decode error it is the
    dictionary with exactly the entries "error" (the fixed label
    "JSON decoding failed") and "details" (the message), and the raw text
    is only printed; for another exception of the decoder (RecursionError
    on deeply nested text, ValueError) it is the dictionary with the one
    entry "error" (the message), and the raw text is not even printed. *)
Theorem decode_failure_value self c p m k t text failure :
  the_client self = Some c -> supported self ->
  chat_create (requests_sent t) c (chat_request p m k) = ApiContent text ->
  json_loads text = inr failure ->
  exists o line,
    _call_llm self p m k t
    = (Ok (JObj o),
       t ++ [EvCall p m k; EvRequest c (chat_request p m k); EvPrint line])
    /\ match failure with
       | DecodeError msg =>
           dom o = {[ "error"; "details" ]}
           /\ o !! "error" = Some (JStr "JSON decoding failed")
           /\ o !! "details" = Some (JStr msg)
           /\ line = ("Error decoding JSON from LLM response: " +:+ msg
                      +:+ ". Raw content: " +:+ text)%string
       | DecodeCrash msg =>
           dom o = {[ "error" ]}
           /\ o !! "error" = Some (JStr msg)
           /\ line = ("Error calling LLM: " +:+ msg)%string
       end.
Proof.
  intros Hc Hs Hapi Hdec. destruct failure as [msg|msg].
  - eexists _, _. split; [by eapply call_llm_decode_error|].
    split; [|by simplify_map_eq].
    rewrite dom_insert_L, dom_singleton_L. set_solver.
  - eexists _, _. split; [by eapply call_llm_decode_crash|].
    split; [apply dom_singleton_L|]. by simplify_map_eq.
Qed.

(** C9 (amended).  The adapter built for 'claude' has no client (the
    constructor prints that the Claude client is not implemented), and
    every invocation of it prints that the client is not initialised and
    returns the empty dictionary, which has no "error" entry, without
    sending a request. *)
Theorem claude_adapter_returns_empty t :
  exists self t1,
    __init__ "claude" t = (Ok self, t1)
    /\ api_choice self = "claude"%string /\ the_client self = None
    /\ In (EvPrint "Claude client not fully implemented in this example, requires 'anthropic' package and specific API calls.") t1
    /\ forall p m k t2,
         _call_llm self p m k t2
         = (Ok (JObj ∅),
            t2 ++ [EvCall p m k;
                   EvPrint "LLM client not initialized. Cannot make API call."])
         /\ is_failure (JObj ∅) = false.
Proof.
  unfold __init__, _initialize_llm_client, bind. simpl.
  destruct (env_missing (getenv "ANTHROPIC_API_KEY")); run.
  - eexists _, _. split; [reflexivity|]. repeat split.
    + apply in_or_app. right. by left.
    + by apply call_llm_uninitialised.
  - eexists _, _. split; [reflexivity|]. repeat split.
    + apply in_or_app. right. by left.
    + by apply call_llm_uninitialised.
Qed.

(** C10.  Any mapping that [get_task_suggestions] returns has exactly the
    six keys priority_score, deadline, suggested_category,
    enhanced_description, recommendations and ai_raw_response, so the
    hook's lookups with a default read the stored entries; and a mapping
    is returned when the adapter has no client and when every request
    raises an exception other than a JSON decode error. *)
Theorem result_has_six_keys self td ctx prefs load t :
  (forall r t',
     get_task_suggestions self td ctx prefs load t = (Ok r, t') ->
     dom r = {[ "priority_score"; "deadline"; "suggested_category";
                "enhanced_description"; "recommendations"; "ai_raw_response" ]}
     /\ r !! "priority_score" = Some (hook_priority_score r)
     /\ r !! "deadline" = Some (hook_deadline r))
  /\ (the_client self = None ->
      exists r t', get_task_suggestions self td ctx prefs load t = (Ok r, t'))
  /\ (forall c, the_client self = Some c -> supported self ->
      (forall n c' r, exists msg, chat_create n c' r = ApiRaise msg) ->
      exists r t', get_task_suggestions self td ctx prefs load t = (Ok r, t')).
Proof.
  assert (forall o t1, llm_layer self td ctx prefs load t = (Ok (JObj o), t1) ->
            o !! "priority_score" = None -> o !! "deadline" = None ->
            exists r t', get_task_suggestions self td ctx prefs load t = (Ok r, t'))
    as Hdefaults.
  { intros o t1 Hllm Hps Hdl.
    destruct (get_task_suggestions_cases self td ctx prefs load t o t1 Hllm)
      as [(b & Hk & _) | [(v & Hk & _) | (r & t2 & H & _)]]; [congruence | congruence |].
    eauto. }
  split; [|split].
  - intros r t' Hrun.
    destruct (get_task_suggestions_returns _ _ _ _ _ _ _ _ Hrun) as (o & t1 & s4 & _ & _ & ->).
    split; [apply build_result_dom|].
    unfold hook_priority_score, hook_deadline, dict_get.
    by rewrite build_result_priority, build_result_deadline.
  - intros Hc.
    destruct (llm_layer_uninitialised self td ctx prefs load t Hc) as [t1 Hllm].
    by eapply Hdefaults.
  - intros c Hc Hs Hout.
    destruct (llm_layer_outage self td ctx prefs load t c Hc Hs Hout) as (msg & t1 & Hllm).
    eapply Hdefaults; [exact Hllm | |]; by rewrite lookup_singleton_ne.
Qed.

End Claims.

(** * The claims on concrete runs *)

(** The run of C1: the backend answers {"priority_score": 1e999}. *)
Lemma priority_score_infinity_escapes_witness :
  fst (@llm_layer Demo.overflow_runtime Demo.openai_manager Demo.sample_task []
         Demo.no_preferences 3 [])
  = Ok (JObj {[ "priority_score" := JFloat (S754_infinity false) ]})
  /\ fst (@get_task_suggestions Demo.overflow_runtime Demo.openai_manager
            Demo.sample_task [] Demo.no_preferences 3 [])
     = Raise OverflowError.
Proof.
  split; [vm_compute; reflexivity|].
  rewrite (@priority_score_infinity_escapes Demo.overflow_runtime Demo.openai_manager
             Demo.sample_task [] Demo.no_preferences 3 []
             {[ "priority_score" := JFloat (S754_infinity false) ]}
             (snd (@llm_layer Demo.overflow_runtime Demo.openai_manager Demo.sample_task []
                     Demo.no_preferences 3 []))
             false);
    [reflexivity | vm_compute; reflexivity | vm_compute; reflexivity].
Defined.

(** The run of C2: the backend answers {"deadline": 1741597200}. *)
Lemma deadline_not_text_escapes_witness :
  fst (@llm_layer Demo.number_runtime Demo.openai_manager Demo.sample_task []
         Demo.no_preferences 3 [])
  = Ok (JObj {[ "deadline" := JInt 1741597200 ]})
  /\ json_truthy (JInt 1741597200) = true
  /\ (exists e,
        fst (@get_task_suggestions Demo.number_runtime Demo.openai_manager
               Demo.sample_task [] Demo.no_preferences 3 []) = Raise e
        /\ (e = TypeError \/ e = OverflowError))
  /\ fst (@get_task_suggestions Demo.number_runtime Demo.openai_manager
            Demo.sample_task [] Demo.no_preferences 3 []) = Raise TypeError.
Proof.
  split; [vm_compute; reflexivity|]. split; [reflexivity|].
  split; [|vm_compute; reflexivity].
  destruct (@deadline_not_text_escapes Demo.number_runtime Demo.openai_manager
              Demo.sample_task [] Demo.no_preferences 3 []
              {[ "deadline" := JInt 1741597200 ]}
              (snd (@llm_layer Demo.number_runtime Demo.openai_manager Demo.sample_task []
                      Demo.no_preferences 3 []))
              (JInt 1741597200)) as (e & Hrun & He);
    [vm_compute; reflexivity | vm_compute; reflexivity | reflexivity | discriminate |].
  exists e. rewrite Hrun. split; [reflexivity | exact He].
Defined.

(** The run of C3: every request raises a JSON decode error. *)
Lemma outage_decode_error_escapes_witness :
  the_client Demo.openai_manager = Some (OpenAI None (Some "sk-test"%string))
  /\ supported Demo.openai_manager
  /\ (forall n c r, exists msg,
        @chat_create Demo.decode_outage_runtime n c r = ApiRaiseDecode msg)
  /\ exists t',
       @get_task_suggestions Demo.decode_outage_runtime Demo.openai_manager Demo.sample_task
         Demo.sample_context Demo.no_preferences 3 [] = (Raise UnboundLocalError, t')
       /\ requests_sent t' = 1%nat.
Proof.
  assert (forall n c r, exists msg,
            @chat_create Demo.decode_outage_runtime n c r = ApiRaiseDecode msg) as Hout.
  { intros n c r. by eexists. }
  split; [reflexivity|]. split; [by left|]. split; [exact Hout|].
  apply (@outage_decode_error_escapes Demo.decode_outage_runtime Demo.openai_manager
           Demo.sample_task Demo.sample_context Demo.no_preferences 3 []
           (OpenAI None (Some "sk-test"%string)) eq_refl (or_introl eq_refl) Hout).
Defined.

(** A run in which every request raises "Connection error.". *)
Lemma total_outage_defaults_witness :
  the_client Demo.openai_manager = Some (OpenAI None (Some "sk-test"%string))
  /\ supported Demo.openai_manager
  /\ (forall n c r, exists msg, @chat_create Demo.outage_runtime n c r = ApiRaise msg)
  /\ exists r t',
       @get_task_suggestions Demo.outage_runtime Demo.openai_manager Demo.sample_task
         Demo.sample_context Demo.no_preferences 3 [] = (Ok r, t')
       /\ r !! "priority_score" = Some (OVal (VJson (JInt 50)))
       /\ r !! "suggested_category" = Some (OVal (VJson (JStr "Finance")))
       /\ r !! "enhanced_description" = Some (OVal (VJson (JStr "Transfer to landlord")))
       /\ r !! "recommendations" = Some (OVal (VJson (JList [])))
       /\ r !! "deadline" = Some (OVal (VDateTime (DateTime 2025 3 10 17 0 0 0))).
Proof.
  assert (forall n c r, exists msg, @chat_create Demo.outage_runtime n c r = ApiRaise msg)
    as Hout.
  { intros n c r. exists "Connection error."%string. by destruct n. }
  split; [reflexivity|]. split; [by left|]. split; [exact Hout|].
  destruct (@total_outage_defaults Demo.outage_runtime Demo.openai_manager Demo.sample_task
              Demo.sample_context Demo.no_preferences 3 []
              (OpenAI None (Some "sk-test"%string)) eq_refl (or_introl eq_refl) Hout)
    as (r & t' & Hrun & Hps & Hcat & Hdesc & Hrec & Hdl & _).
  exists r, t'. repeat split; assumption.
Defined.

(** The run of C5: the summary reply is the text "[]", an empty list. *)
Lemma summary_failure_escapes_witness :
  Demo.sample_context <> []
  /\ @json_loads Demo.list_reply_runtime Demo.text_empty_list = inl (JList [])
  /\ fst (@_call_llm Demo.list_reply_runtime Demo.openai_manager
            (context_summary_prompt_of (combined_context_of Demo.sample_context))
            "gpt-3.5-turbo" 150 []) = Ok (JList [])
  /\ fst (@context_summary Demo.list_reply_runtime Demo.openai_manager
            Demo.sample_context []) = Raise AttributeError
  /\ fst (@get_task_suggestions Demo.list_reply_runtime Demo.openai_manager
            Demo.sample_task Demo.sample_context Demo.no_preferences 3 [])
     = Raise AttributeError.
Proof.
  split; [discriminate|]. split; [vm_compute; reflexivity|].
  split; [vm_compute; reflexivity|].
  destruct (proj1 (@summary_failure_escapes Demo.list_reply_runtime Demo.openai_manager
                     Demo.sample_task Demo.sample_context Demo.no_preferences 3 []
                     ltac:(discriminate))
              (JList [])
              (snd (@_call_llm Demo.list_reply_runtime Demo.openai_manager
                      (context_summary_prompt_of (combined_context_of Demo.sample_context))
                      "gpt-3.5-turbo" 150 [])))
    as [Hsum Hrun]; [vm_compute; reflexivity | discriminate |].
  by rewrite Hsum, Hrun.
Defined.

(** A run in which the summary request raises "Connection error."; the
    context is short, so the fallback is the whole concatenation followed
    by the dots. *)
Lemma summary_falls_back_witness :
  Demo.sample_context <> []
  /\ llm_call_fails (RT := Demo.outage_runtime) Demo.openai_manager
       (context_summary_prompt_of (combined_context_of Demo.sample_context))
       "gpt-3.5-turbo" 150 []
  /\ exists t1,
       @context_summary Demo.outage_runtime Demo.openai_manager Demo.sample_context []
       = (Ok (JStr ("Source: email: Rent is due Friday" +:+ nl
                    +:+ "Source: note: Call the bank...")), t1).
Proof.
  assert (llm_call_fails (RT := Demo.outage_runtime) Demo.openai_manager
            (context_summary_prompt_of (combined_context_of Demo.sample_context))
            "gpt-3.5-turbo" 150 []) as Hfail.
  { right. exists (OpenAI None (Some "sk-test"%string)).
    split; [reflexivity|]. split; [by left|]. left.
    by exists "Connection error."%string. }
  split; [discriminate|]. split; [exact Hfail|].
  apply (proj2 (@summary_falls_back Demo.outage_runtime Demo.openai_manager Demo.sample_task
                  Demo.sample_context Demo.no_preferences 3 [] ltac:(discriminate))
           Hfail).
Defined.

(** The claim of C6 as stated fails: the line of an entry starts with
    "Source: ". *)
Lemma context_line_has_source_prefix :
  combined_context_of [ {| content := "Rent is due Friday"; source_type := "email" |} ]
  = "Source: email: Rent is due Friday"%string
  /\ spec_combined_context [ {| content := "Rent is due Friday"; source_type := "email" |} ]
     = "email: Rent is due Friday"%string
  /\ combined_context_of [ {| content := "Rent is due Friday"; source_type := "email" |} ]
     <> spec_combined_context
          [ {| content := "Rent is due Friday"; source_type := "email" |} ].
Proof. split; [reflexivity|]. split; [reflexivity|]. discriminate. Defined.

(** The run of C6: a summary reply, then a suggestion reply. *)
Lemma summary_call_shape_witness :
  Demo.sample_context <> []
  /\ exists rest,
       calls_of (snd (@get_task_suggestions Demo.summary_runtime Demo.openai_manager
                        Demo.sample_task Demo.sample_context Demo.no_preferences 3 []))
       = EvCall (context_summary_prompt_of
                   ("Source: email: Rent is due Friday" +:+ nl
                    +:+ "Source: note: Call the bank"))
           "gpt-3.5-turbo" 150 :: rest
       /\ (rest = [] \/ exists p, rest = [EvCall p "gpt-4o-mini" 400]).
Proof.
  split; [discriminate|].
  apply (proj1 (@summary_call_shape Demo.summary_runtime Demo.openai_manager Demo.sample_task
                  Demo.sample_context Demo.no_preferences 3 [] ltac:(discriminate))).
Defined.

(** The run of C7: the reply gives recommendations as the text
    "do it now". *)
Lemma recommendations_always_list_witness :
  fst (@llm_layer Demo.full_runtime Demo.openai_manager Demo.sample_task []
         Demo.no_preferences 3 [])
  = Ok (JObj {[ "priority_score" := JInt 250;
                "deadline" := JStr "2025-03-10 09:00:00";
                "recommendations" := JStr "do it now" ]})
  /\ (exists r t2,
        @get_task_suggestions Demo.full_runtime Demo.openai_manager Demo.sample_task []
          Demo.no_preferences 3 [] = (Ok r, t2))
  /\ forall r t2,
       @get_task_suggestions Demo.full_runtime Demo.openai_manager Demo.sample_task []
         Demo.no_preferences 3 [] = (Ok r, t2) ->
       r !! "recommendations" = Some (OVal (VJson (JList []))).
Proof.
  split; [vm_compute; reflexivity|].
  destruct (@recommendations_always_list Demo.full_runtime Demo.openai_manager
              Demo.sample_task [] Demo.no_preferences 3 []
              {[ "priority_score" := JInt 250;
                 "deadline" := JStr "2025-03-10 09:00:00";
                 "recommendations" := JStr "do it now" ]}
              (snd (@llm_layer Demo.full_runtime Demo.openai_manager Demo.sample_task []
                      Demo.no_preferences 3 [])))
    as [Hlist Hret]; [vm_compute; reflexivity|].
  split.
  - apply Hret.
    + intros b. vm_compute. discriminate.
    + intros v Hv _. vm_compute in Hv. injection Hv as <-. by eexists.
  - intros r t2 Hrun. apply (Hlist r t2 Hrun).
Defined.

(** The claim of C8 as stated fails: for the reply "Sure, here are my
    suggestions" the returned value carries the message of the decoder
    but not the reply. *)
Lemma decode_failure_drops_raw_text :
  @json_loads Demo.prose_runtime Demo.text_prose
  = inr (DecodeError "Expecting value: line 1 column 1 (char 0)")
  /\ exists v t',
       @_call_llm Demo.prose_runtime Demo.openai_manager "Suggest." "gpt-4o-mini" 400 []
       = (Ok v, t')
       /\ carries_text v "Expecting value: line 1 column 1 (char 0)" = true
       /\ carries_text v Demo.text_prose = false.
Proof.
  split; [reflexivity|].
  exists (JObj {[ "error" := JStr "JSON decoding failed";
                  "details" := JStr "Expecting value: line 1 column 1 (char 0)" ]}).
  eexists. split; [vm_compute; reflexivity|]. split; vm_compute; reflexivity.
Defined.

(** The runs of C8: the reply is prose (a JSON decode error), and the
    reply is 2000 opening brackets (a RecursionError of the decoder). *)
Lemma decode_failure_value_witness :
  the_client Demo.openai_manager = Some (OpenAI None (Some "sk-test"%string))
  /\ supported Demo.openai_manager
  /\ @chat_create Demo.prose_runtime (requests_sent [])
       (OpenAI None (Some "sk-test"%string)) (chat_request "Suggest." "gpt-4o-mini" 400)
     = ApiContent Demo.text_prose
  /\ @json_loads Demo.prose_runtime Demo.text_prose
     = inr (DecodeError "Expecting value: line 1 column 1 (char 0)")
  /\ (exists o t',
        @_call_llm Demo.prose_runtime Demo.openai_manager "Suggest." "gpt-4o-mini" 400 []
        = (Ok (JObj o), t')
        /\ dom o = {[ "error"; "details" ]}
        /\ o !! "details" = Some (JStr "Expecting value: line 1 column 1 (char 0)"))
  /\ @chat_create Demo.crash_runtime (requests_sent [])
       (OpenAI None (Some "sk-test"%string)) (chat_request "Suggest." "gpt-4o-mini" 400)
     = ApiContent Demo.text_deep
  /\ @json_loads Demo.crash_runtime Demo.text_deep
     = inr (DecodeCrash "maximum recursion depth exceeded while decoding a JSON array from a unicode string")
  /\ exists o t',
       @_call_llm Demo.crash_runtime Demo.openai_manager "Suggest." "gpt-4o-mini" 400 []
       = (Ok (JObj o), t')
       /\ dom o = {[ "error" ]}
       /\ o !! "error"
          = Some (JStr "maximum recursion depth exceeded while decoding a JSON array from a unicode string").
Proof.
  split; [reflexivity|]. split; [by left|]. split; [reflexivity|]. split; [reflexivity|].
  split.
  { destruct (@decode_failure_value Demo.prose_runtime Demo.openai_manager
                (OpenAI None (Some "sk-test"%string)) "Suggest." "gpt-4o-mini" 400 []
                Demo.text_prose (DecodeError "Expecting value: line 1 column 1 (char 0)")
                eq_refl (or_introl eq_refl) eq_refl eq_refl)
      as (o & line & Hrun & Hdom & _ & Hdet & _).
    exists o. eexists. split; [exact Hrun|]. split; assumption. }
  split; [reflexivity|].
  assert (@json_loads Demo.crash_runtime Demo.text_deep
          = inr (DecodeCrash "maximum recursion depth exceeded while decoding a JSON array from a unicode string"))
    as Hcrash by (vm_compute; reflexivity).
  split; [exact Hcrash|].
  destruct (@decode_failure_value Demo.crash_runtime Demo.openai_manager
              (OpenAI None (Some "sk-test"%string)) "Suggest." "gpt-4o-mini" 400 []
              Demo.text_deep _ eq_refl (or_introl eq_refl) eq_refl Hcrash)
    as (o & line & Hrun & Hdom & Herr & _).
  exists o. eexists. split; [exact Hrun|]. split; assumption.
Defined.

(** The claim of C9 as stated fails: the adapter built for 'claude'
    answers the empty dictionary, which is not a failure value. *)
Lemma claude_adapter_not_a_failure :
  exists self t1 v t2,
    @__init__ Demo.outage_runtime "claude" [] = (Ok self, t1)
    /\ @_call_llm Demo.outage_runtime self "Suggest." "gpt-4o-mini" 400 t1 = (Ok v, t2)
    /\ v = JObj ∅
    /\ is_failure v = false.
Proof.
  exists Demo.claude_manager. eexists. exists (JObj ∅). eexists.
  split; [vm_compute; reflexivity|]. split; [vm_compute; reflexivity|].
  split; reflexivity.
Defined.

(** The run of C10: the adapter built for 'claude', which has no client. *)
Lemma result_has_six_keys_witness :
  the_client Demo.claude_manager = None
  /\ exists r t',
       @get_task_suggestions Demo.outage_runtime Demo.claude_manager Demo.sample_task
         Demo.sample_context Demo.no_preferences 3 [] = (Ok r, t')
       /\ dom r = {[ "priority_score"; "deadline"; "suggested_category";
                     "enhanced_description"; "recommendations"; "ai_raw_response" ]}
       /\ r !! "priority_score" = Some (hook_priority_score r)
       /\ r !! "deadline" = Some (hook_deadline r).
Proof.
  split; [reflexivity|].
  destruct (@result_has_six_keys Demo.outage_runtime Demo.claude_manager Demo.sample_task
              Demo.sample_context Demo.no_preferences 3 []) as (Hkeys & Hnone & _).
  destruct (Hnone eq_refl) as (r & t' & Hrun).
  exists r, t'. split; [exact Hrun|]. exact (Hkeys r t' Hrun).
Defined.

(** * Further properties of the module and of the hook *)

Section Fields.
Context `{RT : Runtime}.
Implicit Types (s : gmap string value) (t : list event) (c d : json).

(** The priority step, entry by entry. *)
Lemma priority_step_entries s t :
  (forall b, s !! "priority_score" <> Some (VJson (JFloat (S754_infinity b)))) ->
  exists s1, priority_step s t = (Ok s1, t)
    /\ s1 !! "priority_score"
       = (fun _ => priority_outcome (s !! "priority_score")) <$> s !! "priority_score"
    /\ forall k, k <> "priority_score"%string -> s1 !! k = s !! k.
Proof.
  intros Hfin.
  destruct (priority_step_cases s t)
    as [[Hk H] | [(v & n & Hk & Hn & H) | [(v & e & Hk & Hn & He & H) | (b & Hk & H)]]].
  - exists s. rewrite Hk. done.
  - eexists. split; [exact H|]. rewrite Hk, lookup_insert_eq. simpl. rewrite Hn.
    split; [done|]. intros k Hne. by rewrite lookup_insert_ne.
  - eexists. split; [exact H|]. rewrite Hk, lookup_insert_eq. simpl. rewrite Hn.
    split; [done|]. intros k Hne. by rewrite lookup_insert_ne.
  - by destruct (Hfin b).
Qed.

(** The two deadline steps, with the exact trace. *)
Lemma deadline_steps_exact s t :
  (forall v, s !! "deadline" = Some v -> value_truthy v = true ->
             exists text, v = VJson (JStr text)) ->
  exists s2,
    deadline_step s t = (Ok s2, t ++ deadline_warning (s !! "deadline"))
    /\ forall t', default_deadline_step s2 t'
         = (Ok (<["deadline" := VDateTime (deadline_outcome (s !! "deadline"))]> s), t').
Proof.
  intros Htext.
  destruct (s !! "deadline") as [v|] eqn:Hk.
  - destruct (value_truthy v) eqn:Hv.
    + destruct (Htext v eq_refl Hv) as [text ->].
      rewrite (deadline_step_truthy s t _ Hk Hv).
      assert (text <> ""%string) as Hne by (intros ->; vm_compute in Hv; done).
      unfold deadline_warning, deadline_outcome.
      rewrite (bool_decide_eq_false_2 _ Hne).
      destruct (strptime text) as [parsed|]; simpl.
      * eexists. rewrite app_nil_r. split; [done|].
        intros t'. apply default_deadline_step_set.
      * eexists. split; [done|]. intros t'. apply default_deadline_step_null.
    + rewrite deadline_step_falsy by (by rewrite (dict_get_Some _ _ _ _ Hk)).
      eexists. split.
      * f_equal. unfold deadline_warning.
        destruct v as [[| b | z | f | text | l | o] | dt]; rewrite ?app_nil_r; try done.
        simpl in Hv. apply negb_false_iff in Hv. by rewrite Hv, app_nil_r.
      * intros t'. rewrite default_deadline_step_null. do 3 f_equal.
        unfold deadline_outcome.
        destruct v as [[| b | z | f | text | l | o] | dt]; try done.
        simpl in Hv. apply negb_false_iff in Hv. by rewrite Hv.
  - rewrite deadline_step_falsy by (by rewrite (dict_get_None _ _ _ Hk)).
    eexists. simpl. rewrite app_nil_r. split; [done|].
    intros t'. apply default_deadline_step_null.
Qed.

(** Lines 165-203 when neither coercion raises: the returned mapping, the
    dictionary it is built from entry by entry, and the exact trace. *)
Lemma post_process_fields c d s t :
  (forall b, s !! "priority_score" <> Some (VJson (JFloat (S754_infinity b)))) ->
  (forall v, s !! "deadline" = Some v -> value_truthy v = true ->
             exists text, v = VJson (JStr text)) ->
  exists s4,
    post_process c d s t
    = (Ok (build_result c d s4), t ++ deadline_warning (s !! "deadline"))
    /\ forall k, s4 !! k = processed_entry s k.
Proof.
  intros Hfin Htext.
  destruct (priority_step_entries s t Hfin) as (s1 & Hp & Hps & Hother).
  assert (s1 !! "deadline" = s !! "deadline") as Hdl by (by apply Hother).
  destruct (deadline_steps_exact s1 t) as (s2 & Hd & Hdd).
  { rewrite Hdl. exact Htext. }
  rewrite Hdl in Hd, Hdd.
  set (s3 := <["deadline" := VDateTime (deadline_outcome (s !! "deadline"))]> s1) in *.
  eexists. split.
  { unfold post_process, bind. rewrite Hp, Hd, Hdd, recommendations_step_run. reflexivity. }
  assert (s3 !! "recommendations" = s !! "recommendations") as Hrec.
  { unfold s3. rewrite lookup_insert_ne by done. by apply Hother. }
  intros k. unfold processed_entry. rewrite Hrec.
  repeat case_bool_decide; subst.
  - destruct (s !! "recommendations") as [v|] eqn:Hr;
      [destruct (isinstance_list v)|]; try rewrite lookup_insert_ne by done;
      unfold s3; rewrite lookup_insert_ne by done; exact Hps.
  - destruct (s !! "recommendations") as [v|] eqn:Hr;
      [destruct (isinstance_list v)|]; try rewrite lookup_insert_ne by done;
      unfold s3; by rewrite lookup_insert_eq.
  - destruct (s !! "recommendations") as [v|] eqn:Hr.
    + destruct (isinstance_list v) eqn:Hl.
      * rewrite Hrec. simpl.
        destruct v as [[| b | z | f | text | l | o] | dt]; try discriminate. done.
      * rewrite lookup_insert_eq. simpl.
        destruct v as [[| b | z | f | text | l | o] | dt]; try discriminate; done.
    + by rewrite Hrec.
  - destruct (s !! "recommendations") as [v|] eqn:Hr;
      [destruct (isinstance_list v)|]; try rewrite lookup_insert_ne by done;
      unfold s3; rewrite lookup_insert_ne by done; by apply Hother.
Qed.

Implicit Types (self : AITaskManagement) (td : gmap string json)
  (ctx : list ContextEntry) (prefs : json) (load : Z).

(** A returned mapping, in full: how it is built, and what was printed. *)
Lemma get_task_suggestions_returned self td ctx prefs load t o t1 r t2 :
  llm_layer self td ctx prefs load t = (Ok (JObj o), t1) ->
  get_task_suggestions self td ctx prefs load t = (Ok r, t2) ->
  exists s4,
    r = build_result (dict_get td "category" (JStr "Uncategorized"))
          (dict_get td "description" (JStr "")) s4
    /\ t2 = t1 ++ deadline_warning (VJson <$> o !! "deadline")
    /\ forall k, s4 !! k = processed_entry (VJson <$> o) k.
Proof.
  intros Hllm Hrun.
  destruct (get_task_suggestions_cases self td ctx prefs load t o t1 Hllm)
    as [(b & _ & H) | [(v & _ & _ & _ & H) |
        (r' & t' & H & _ & _ & _ & _ & _ & _ & _ & _ & Hfin & Htext)]];
    rewrite H in Hrun; simplify_eq.
  destruct (post_process_fields (dict_get td "category" (JStr "Uncategorized"))
              (dict_get td "description" (JStr "")) (VJson <$> o) t1) as (s4 & Hpp & Hk).
  { intros b. rewrite lookup_fmap. intros Hb. apply (Hfin b).
    destruct (o !! "priority_score"); by simplify_eq/=. }
  { intros v. rewrite lookup_fmap. intros Hv Htr.
    destruct (o !! "deadline") as [j|] eqn:Hj; simplify_eq/=.
    destruct (Htext j eq_refl Htr) as [text ->]. eauto. }
  rewrite get_task_suggestions_run, Hllm, Hpp in H. simplify_eq.
  exists s4. by rewrite lookup_fmap in *.
Qed.

End Fields.

Section AdapterProperties.
Context `{RT : Runtime}.
Implicit Types (self : AITaskManagement) (t : list event).

(** With a client that reaches the backend, an invocation sends exactly
    one request, right after it is recorded; what follows are prints.  It
    returns a value unless the request itself raises a JSON decode error. *)
Lemma call_llm_supported_trace self c p m k t :
  the_client self = Some c -> supported self ->
  exists res tail,
    _call_llm self p m k t
    = (res, t ++ EvCall p m k :: EvRequest c (chat_request p m k) :: tail)
    /\ requests_sent tail = 0%nat /\ calls_of tail = []
    /\ (forall e, res = Raise e ->
        e = UnboundLocalError
        /\ exists msg, chat_create (requests_sent t) c (chat_request p m k)
                       = ApiRaiseDecode msg).
Proof.
  intros Hc Hs.
  destruct (chat_create (requests_sent t) c (chat_request p m k)) as [msg|msg|text] eqn:Hapi.
  - rewrite (call_llm_backend_raises _ _ _ _ _ _ _ Hc Hs Hapi). by eexists _, [_].
  - rewrite (call_llm_request_decode_error _ _ _ _ _ _ _ Hc Hs Hapi).
    eexists _, []. split; [reflexivity|]. split; [done|]. split; [done|].
    intros e [= <-]. eauto.
  - destruct (json_loads text) as [v|[msg|msg]] eqn:Hdec.
    + rewrite (call_llm_decoded _ _ _ _ _ _ _ _ Hc Hs Hapi Hdec). by eexists _, [].
    + rewrite (call_llm_decode_error _ _ _ _ _ _ _ _ Hc Hs Hapi Hdec). by eexists _, [_].
    + rewrite (call_llm_decode_crash _ _ _ _ _ _ _ _ Hc Hs Hapi Hdec). by eexists _, [_].
Qed.

(** Every failure that the adapter turns into a value yields a dictionary
    whose keys are among "error" and "details": empty without a client,
    with an "error" entry otherwise. *)
Lemma call_llm_failure_keys self p m k t :
  llm_call_fails self p m k t ->
  exists o t1,
    _call_llm self p m k t = (Ok (JObj o), t1)
    /\ (forall key, key <> "error"%string -> key <> "details"%string -> o !! key = None)
    /\ (the_client self = None -> o = ∅)
    /\ (the_client self <> None -> is_Some (o !! "error")).
Proof.
  intros [Hc | (c & Hc & Hs & [[msg Hm] | (text & [msg|msg] & Hm & Hd)])].
  - eexists _, _. split; [by apply call_llm_uninitialised|].
    split; [intros; apply lookup_empty|]. split; [done|]. by intros [].
  - eexists _, _. split; [by eapply call_llm_backend_raises|].
    split; [intros; by rewrite lookup_singleton_ne|].
    split; [by rewrite Hc|]. intros _. rewrite lookup_singleton_eq. eauto.
  - eexists _, _. split; [by eapply call_llm_decode_error|].
    split; [intros; rewrite lookup_insert_ne by done; by rewrite lookup_singleton_ne|].
    split; [by rewrite Hc|]. intros _. rewrite lookup_insert_eq. eauto.
  - eexists _, _. split; [by eapply call_llm_decode_crash|].
    split; [intros; by rewrite lookup_singleton_ne|].
    split; [by rewrite Hc|]. intros _. rewrite lookup_singleton_eq. eauto.
Qed.

(** X1.  An API choice other than 'openai', 'claude' and 'lm_studio' is
    rejected with ValueError before anything is printed or built. *)
Theorem unknown_choice_rejected choice t :
  choice <> "openai"%string -> choice <> "claude"%string -> choice <> "lm_studio"%string ->
  __init__ choice t = (Raise ValueError, t).
Proof.
  intros H1 H2 H3. unfold __init__, _initialize_llm_client, bind.
  by rewrite !bool_decide_eq_false_2.
Qed.

(** X2.  The adapter for 'lm_studio' is built without a warning, whatever
    the environment holds: its client points to LM_STUDIO_BASE_URL or to
    http://localhost:1234/v1 with the fixed key, and each invocation of
    it sends exactly one request to that client (no retry); it returns a
    value unless that request itself raises a JSON decode error. *)
Theorem lm_studio_adapter_one_request t :
  let c := OpenAI (Some (default "http://localhost:1234/v1"%string
                           (getenv "LM_STUDIO_BASE_URL")))
             (Some "lm-studio-key"%string) in
  exists self,
    __init__ "lm_studio" t = (Ok self, t)
    /\ the_client self = Some c
    /\ forall p m k t2, exists res tail,
         _call_llm self p m k t2
         = (res, t2 ++ EvCall p m k :: EvRequest c (chat_request p m k) :: tail)
         /\ requests_sent tail = 0%nat /\ calls_of tail = []
         /\ (forall e, res = Raise e ->
             e = UnboundLocalError
             /\ exists msg, chat_create (requests_sent t2) c (chat_request p m k)
                            = ApiRaiseDecode msg).
Proof.
  intros c. eexists. split; [reflexivity|]. split; [reflexivity|].
  intros p m k t2. apply call_llm_supported_trace; [reflexivity | by right].
Qed.

(** X3.  [_call_llm] lets exactly one exception through: when the request
    itself raises a JSON decode error, UnboundLocalError leaves it (line
    90 reads [response], which is not bound yet).  In every other case it
    returns a value.  It always records one invocation and sends at most
    one request; without a client it sends none and answers the empty
    dictionary. *)
Theorem call_llm_raises_only_unbound_local self p m k t :
  exists res t',
    _call_llm self p m k t = (res, t')
    /\ calls_of t' = calls_of t ++ [EvCall p m k]
    /\ (requests_sent t' <= S (requests_sent t))%nat
    /\ (the_client self = None -> res = Ok (JObj ∅) /\ requests_sent t' = requests_sent t)
    /\ (forall e, res = Raise e ->
        e = UnboundLocalError /\ request_decode_error self p m k t)
    /\ (request_decode_error self p m k t -> res = Raise UnboundLocalError).
Proof.
  destruct (call_llm_total self p m k t) as (res & t' & Hrun & Hcalls & Hreq & Hraise).
  exists res, t'. split; [done|]. split; [done|]. split; [done|]. split; [|split; [done|]].
  - intros Hc. rewrite (call_llm_uninitialised _ _ _ _ _ Hc) in Hrun. simplify_eq.
    split; [done|]. rewrite requests_sent_app. unfold requests_sent. simpl. lia.
  - intros (c & msg & Hc & Hs & Hapi).
    rewrite (call_llm_request_decode_error _ _ _ _ _ _ _ Hc Hs Hapi) in Hrun.
    by simplify_eq.
Qed.

(** X4.  With a client that reaches the backend, the outcome of an
    invocation is decided by the backend and the decoder alone, and one
    request is sent in each case: the decoded reply itself (of any JSON
    type, nothing printed); {"error": message} when the request raises an
    exception other than a JSON decode error, or when the decoder raises
    one; {"error": "JSON decoding failed", "details": message} when the
    decoder raises its decode error; and no value at all, but
    UnboundLocalError, when the request raises a JSON decode error. *)
Theorem call_llm_outcomes self c p m k t :
  the_client self = Some c -> supported self ->
  exists res tail,
    _call_llm self p m k t
    = (res, t ++ EvCall p m k :: EvRequest c (chat_request p m k) :: tail)
    /\ requests_sent tail = 0%nat
    /\ match chat_create (requests_sent t) c (chat_request p m k) with
       | ApiRaise msg =>
           res = Ok (JObj {[ "error" := JStr msg ]})
           /\ tail = [EvPrint ("Error calling LLM: " +:+ msg)]
       | ApiRaiseDecode _ =>
           res = Raise UnboundLocalError /\ tail = []
       | ApiContent text =>
           match json_loads text with
           | inl decoded => res = Ok decoded /\ tail = []
           | inr (DecodeError msg) =>
               res = Ok (JObj {[ "error" := JStr "JSON decoding failed";
                                 "details" := JStr msg ]})
               /\ tail = [EvPrint ("Error decoding JSON from LLM response: " +:+ msg
                                   +:+ ". Raw content: " +:+ text)]
           | inr (DecodeCrash msg) =>
               res = Ok (JObj {[ "error" := JStr msg ]})
               /\ tail = [EvPrint ("Error calling LLM: " +:+ msg)]
           end
       end.
Proof.
  intros Hc Hs.
  destruct (chat_create (requests_sent t) c (chat_request p m k)) as [msg|msg|text] eqn:Hapi.
  - rewrite (call_llm_backend_raises _ _ _ _ _ _ _ Hc Hs Hapi). by eexists _, [_].
  - rewrite (call_llm_request_decode_error _ _ _ _ _ _ _ Hc Hs Hapi). by eexists _, [].
  - destruct (json_loads text) as [v|[msg|msg]] eqn:Hdec.
    + rewrite (call_llm_decoded _ _ _ _ _ _ _ _ Hc Hs Hapi Hdec). by eexists _, [].
    + rewrite (call_llm_decode_error _ _ _ _ _ _ _ _ Hc Hs Hapi Hdec). by eexists _, [_].
    + rewrite (call_llm_decode_crash _ _ _ _ _ _ _ _ Hc Hs Hapi Hdec). by eexists _, [_].
Qed.

(** X5.  [process_daily_context] invokes the adapter once (model
    gpt-3.5-turbo, 300 tokens, at most one request).  It raises exactly
    when the adapter does (UnboundLocalError, when the request itself
    raises a JSON decode error); otherwise it returns the reply when it is
    true and the empty dictionary when it is false, so a dictionary reply
    is returned as it is. *)
Theorem process_daily_context_outcome self content t :
  exists res t',
    _call_llm self (daily_context_prompt content) "gpt-3.5-turbo" 300 t = (res, t')
    /\ process_daily_context self content t
       = (match res with
          | Ok reply => Ok (if json_truthy reply then reply else JObj ∅)
          | Raise e => Raise e
          end, t')
    /\ calls_of t' = calls_of t ++ [EvCall (daily_context_prompt content) "gpt-3.5-turbo" 300]
    /\ (requests_sent t' <= S (requests_sent t))%nat
    /\ (forall o, res = Ok (JObj o) ->
        process_daily_context self content t = (Ok (JObj o), t'))
    /\ (forall e, res = Raise e ->
        e = UnboundLocalError
        /\ request_decode_error self (daily_context_prompt content) "gpt-3.5-turbo" 300 t).
Proof.
  destruct (call_llm_total self (daily_context_prompt content) "gpt-3.5-turbo" 300 t)
    as (res & t' & Hrun & Hcalls & Hreq & Hraise).
  assert (process_daily_context self content t
          = (match res with
             | Ok reply => Ok (if json_truthy reply then reply else JObj ∅)
             | Raise e => Raise e
             end, t')) as Hp.
  { unfold process_daily_context, bind. rewrite Hrun. by destruct res. }
  exists res, t'. split; [done|]. split; [done|]. split; [done|]. split; [done|].
  split; [|done].
  intros o ->. rewrite Hp. simpl. unfold dict_truthy.
  case_bool_decide as Hsz; [|done]. simpl.
  apply map_size_empty_iff in Hsz. by subst.
Qed.

(** X6.  When the invocation of [process_daily_context] fails in a way the
    adapter turns into a value (no client, an exception of the request
    other than a JSON decode error, a reply on which the decoder fails),
    the result is a dictionary with none of the five keys the prompt asks
    for: the empty dictionary without a client, a dictionary with an
    "error" entry otherwise.  When the request itself raises a JSON
    decode error, [process_daily_context] raises UnboundLocalError. *)
Theorem process_daily_context_failure self content t :
  (llm_call_fails self (daily_context_prompt content) "gpt-3.5-turbo" 300 t ->
   exists o t',
     process_daily_context self content t = (Ok (JObj o), t')
     /\ o !! "entities" = None /\ o !! "potential_tasks" = None
     /\ o !! "urgent_keywords" = None /\ o !! "sentiment" = None /\ o !! "summary" = None
     /\ (the_client self = None -> o = ∅)
     /\ (the_client self <> None -> is_failure (JObj o) = true))
  /\ (request_decode_error self (daily_context_prompt content) "gpt-3.5-turbo" 300 t ->
      exists t', process_daily_context self content t = (Raise UnboundLocalError, t')).
Proof.
  split.
  - intros Hfail.
    destruct (call_llm_failure_keys _ _ _ _ _ Hfail) as (o & t' & Hrun & Hkeys & Hnone & Herr).
    exists o, t'. split.
    { unfold process_daily_context, bind. rewrite Hrun. simpl. unfold dict_truthy.
      case_bool_decide as Hsz; [|done]. simpl.
      apply map_size_empty_iff in Hsz. by subst. }
    repeat split; try (by apply Hkeys); [done|].
    intros Hc. destruct (Herr Hc) as [v Hv]. simpl. by apply (contains_Some _ _ v).
  - intros (c & msg & Hc & Hs & Hapi).
    unfold process_daily_context, bind.
    rewrite (call_llm_request_decode_error _ _ _ _ _ _ _ Hc Hs Hapi). eauto.
Qed.

(** X19.  The adapter for 'openai' cannot be built without a key: when
    OPENAI_API_KEY is not set, the constructor prints its warning and then
    raises OpenAIError (the client of the library refuses to be built);
    when the key is set it builds a client that holds that key, and warns
    only if the key is empty. *)
Theorem openai_adapter_needs_key t :
  (getenv "OPENAI_API_KEY" = None ->
   __init__ "openai" t
   = (Raise OpenAIError,
      t ++ [EvPrint "Warning: OPENAI_API_KEY not found in environment variables. OpenAI client may not work."]))
  /\ (forall key, getenv "OPENAI_API_KEY" = Some key ->
      exists self,
        __init__ "openai" t
        = (Ok self,
           t ++ (if bool_decide (key = ""%string)
                 then [EvPrint "Warning: OPENAI_API_KEY not found in environment variables. OpenAI client may not work."]
                 else []))
        /\ the_client self = Some (OpenAI None (Some key)) /\ supported self).
Proof.
  unfold __init__, _initialize_llm_client, new_client, bind. simpl. split.
  - intros ->. reflexivity.
  - intros key ->. simpl. case_bool_decide; run.
    + eexists. split; [reflexivity|]. split; [done | by left].
    + eexists. rewrite app_nil_r. split; [reflexivity|]. split; [done | by left].
Qed.

End AdapterProperties.

Section SuggestionProperties.
Context `{RT : Runtime}.
Implicit Types (self : AITaskManagement) (td : gmap string json)
  (ctx : list ContextEntry) (prefs : json) (load : Z) (t : list event).

Lemma build_result_raw (c d : json) (s : gmap string value) :
  build_result c d s !! "ai_raw_response" = Some (ORaw s).
Proof. unfold build_result. by simplify_map_eq. Qed.

(** The priority that is returned is an integer between 1 and 100. *)
Lemma priority_outcome_range (v : option value) :
  exists n, priority_outcome v = VJson (JInt n) /\ 1 <= n <= 100.
Proof.
  destruct v as [v|]; simpl.
  - destruct (py_int v) as [m|e]; eexists; (split; [reflexivity|]);
      [apply clamp_range | lia].
  - exists 50. split; [done | lia].
Qed.

(** The LLM layer invokes the adapter once or twice and sends at most two
    requests. *)
Lemma llm_layer_bounds self td ctx prefs load t :
  (requests_sent (snd (llm_layer self td ctx prefs load t)) <= 2 + requests_sent t)%nat
  /\ exists added,
       calls_of (snd (llm_layer self td ctx prefs load t)) = calls_of t ++ added
       /\ (1 <= length added <= 2)%nat.
Proof.
  destruct ctx as [|c0 rest].
  - destruct (llm_layer_calls_empty self td prefs load t) as [Hc Hr].
    split; [lia|]. eexists. split; [exact Hc|]. simpl. lia.
  - destruct (context_summary_nonempty self (c0 :: rest) t) as (v & t1 & _ & Hc & Hr & Hsum);
      [done|].
    destruct (llm_layer_calls_nonempty self td (c0 :: rest) prefs load t) as (more & Hcalls & Hmore);
      [done|].
    split.
    + unfold llm_layer, bind. rewrite Hsum.
      destruct v as [[| b | z | f | str | l | o] | e]; simpl; try lia.
      match goal with
      | |- context [ _call_llm self ?p ?m ?k t1 ] =>
          destruct (call_llm_total self p m k t1) as (v2 & t2 & -> & _ & Hr2 & _)
      end.
      simpl. lia.
    + eexists. split; [exact Hcalls|].
      destruct Hmore as [-> | [p ->]]; simpl; lia.
Qed.

(** Without a client: the reply is the empty dictionary and nothing is
    sent. *)
Lemma llm_layer_uninitialised_trace self td ctx prefs load t :
  the_client self = None ->
  exists t1, llm_layer self td ctx prefs load t = (Ok (JObj ∅), t1)
             /\ requests_sent t1 = requests_sent t.
Proof.
  intros Hc. unfold llm_layer, bind.
  destruct ctx as [|c0 rest].
  - rewrite context_summary_empty, call_llm_uninitialised by done.
    eexists. split; [done|]. rewrite requests_sent_app. unfold requests_sent. simpl. lia.
  - unfold context_summary, bind. rewrite call_llm_uninitialised by done.
    run. rewrite call_llm_uninitialised by done.
    eexists. split; [done|]. rewrite !requests_sent_app. unfold requests_sent. simpl. lia.
Qed.

(** Without a client the returned mapping is built from the dictionary
    that holds the default deadline alone. *)
Lemma get_task_suggestions_uninitialised self td ctx prefs load t :
  the_client self = None ->
  exists t',
    get_task_suggestions self td ctx prefs load t
    = (Ok (build_result (dict_get td "category" (JStr "Uncategorized"))
             (dict_get td "description" (JStr ""))
             {[ "deadline" := VDateTime (default_deadline datetime_now) ]}), t')
    /\ requests_sent t' = requests_sent t.
Proof.
  intros Hc.
  destruct (llm_layer_uninitialised_trace self td ctx prefs load t Hc) as (t1 & Hllm & Hreq).
  destruct (get_task_suggestions_cases self td ctx prefs load t ∅ t1 Hllm)
    as [(b & Hk & _) | [(v & Hk & _) | (r & t2 & Hrun & _ & Hreq2 & _)]];
    [by rewrite lookup_empty in Hk | by rewrite lookup_empty in Hk |].
  destruct (get_task_suggestions_returned _ _ _ _ _ _ _ _ _ _ Hllm Hrun) as (s4 & -> & _ & Hs4).
  exists t2. rewrite Hrun. split; [|congruence].
  do 3 f_equal. apply map_eq. intros k. rewrite Hs4. unfold processed_entry.
  rewrite fmap_empty. repeat case_bool_decide; subst; rewrite ?lookup_empty; try done.
  by rewrite lookup_singleton_ne.
Qed.

(** X7.  The category and the description of the reply are returned as
    they are, whatever their value (null included); the task's own
    category and description are used only when the reply has no such
    key. *)
Theorem reply_text_fields_pass_through self td ctx prefs load t o t1 r t2 :
  llm_layer self td ctx prefs load t = (Ok (JObj o), t1) ->
  get_task_suggestions self td ctx prefs load t = (Ok r, t2) ->
  (forall v, o !! "suggested_category" = Some v ->
             r !! "suggested_category" = Some (OVal (VJson v)))
  /\ (o !! "suggested_category" = None ->
      r !! "suggested_category"
      = Some (OVal (VJson (dict_get td "category" (JStr "Uncategorized")))))
  /\ (forall v, o !! "enhanced_description" = Some v ->
                r !! "enhanced_description" = Some (OVal (VJson v)))
  /\ (o !! "enhanced_description" = None ->
      r !! "enhanced_description"
      = Some (OVal (VJson (dict_get td "description" (JStr ""))))).
Proof.
  intros Hllm Hrun.
  destruct (get_task_suggestions_cases self td ctx prefs load t o t1 Hllm)
    as [(b & _ & H) | [(v & _ & _ & _ & H) |
        (r' & t' & H & _ & _ & _ & _ & _ & Hcat & Hdesc & _)]];
    rewrite H in Hrun; simplify_eq.
  rewrite Hcat, Hdesc. repeat split.
  - intros v Hk. by rewrite (dict_get_Some _ _ _ _ Hk).
  - intros Hk. by rewrite (dict_get_None _ _ _ Hk).
  - intros v Hk. by rewrite (dict_get_Some _ _ _ _ Hk).
  - intros Hk. by rewrite (dict_get_None _ _ _ Hk).
Qed.

(** X8.  A well-formed reply passes through unchanged: an integer
    priority between 1 and 100, a deadline text that parses and a list of
    recommendations are returned as sent (the deadline as the parsed
    timestamp), and the post-processing prints nothing. *)
Theorem well_formed_reply_unchanged self td ctx prefs load t o t1 n text parsed l :
  llm_layer self td ctx prefs load t = (Ok (JObj o), t1) ->
  o !! "priority_score" = Some (JInt n) -> 1 <= n <= 100 ->
  o !! "deadline" = Some (JStr text) -> text <> ""%string -> strptime text = Some parsed ->
  o !! "recommendations" = Some (JList l) ->
  exists r,
    get_task_suggestions self td ctx prefs load t = (Ok r, t1)
    /\ r !! "priority_score" = Some (OVal (VJson (JInt n)))
    /\ r !! "deadline" = Some (OVal (VDateTime parsed))
    /\ r !! "recommendations" = Some (OVal (VJson (JList l))).
Proof.
  intros Hllm Hps Hn Hdl Hne Hparse Hrec.
  destruct (get_task_suggestions_cases self td ctx prefs load t o t1 Hllm)
    as [(b & Hk & _) | [(v & Hk & Hv & Hns & _) |
        (r & t2 & Hrun & _ & _ & _ & Hp & Hd & _ & _ & Hr & _)]].
  - congruence.
  - rewrite Hdl in Hk. simplify_eq. by destruct (Hns text).
  - destruct (get_task_suggestions_returned _ _ _ _ _ _ _ _ _ _ Hllm Hrun) as (s4 & _ & -> & _).
    exists r. split.
    { rewrite Hrun, Hdl. simpl.
      by rewrite (bool_decide_eq_false_2 _ Hne), Hparse, app_nil_r. }
    rewrite Hp, Hd, Hr, Hps, Hdl, Hrec. simpl.
    by rewrite (bool_decide_eq_false_2 _ Hne), Hparse, clamp_inside.
Qed.

(** X9.  The "ai_raw_response" entry is the post-processed dictionary, not
    the reply as decoded: it always holds a timestamp under "deadline"
    (the one of the record, even when the reply had none), its priority
    and recommendations are those of the record when the reply had these
    keys, and every other key of the reply is kept as it was. *)
Theorem raw_response_is_post_processed self td ctx prefs load t o t1 r t2 :
  llm_layer self td ctx prefs load t = (Ok (JObj o), t1) ->
  get_task_suggestions self td ctx prefs load t = (Ok r, t2) ->
  exists raw stamp,
    r !! "ai_raw_response" = Some (ORaw raw)
    /\ raw !! "deadline" = Some (VDateTime stamp)
    /\ r !! "deadline" = Some (OVal (VDateTime stamp))
    /\ (is_Some (o !! "priority_score") ->
        exists v, raw !! "priority_score" = Some v /\ r !! "priority_score" = Some (OVal v))
    /\ (o !! "priority_score" = None -> raw !! "priority_score" = None)
    /\ (is_Some (o !! "recommendations") ->
        exists v, raw !! "recommendations" = Some v /\ r !! "recommendations" = Some (OVal v))
    /\ (forall k, k <> "priority_score"%string -> k <> "deadline"%string ->
                  k <> "recommendations"%string -> raw !! k = VJson <$> o !! k).
Proof.
  intros Hllm Hrun.
  destruct (get_task_suggestions_returned _ _ _ _ _ _ _ _ _ _ Hllm Hrun) as (s4 & -> & _ & Hs4).
  exists s4, (deadline_outcome (VJson <$> o !! "deadline")).
  rewrite build_result_raw, build_result_deadline, build_result_priority,
    build_result_recommendations.
  unfold dict_get. rewrite !Hs4. unfold processed_entry. simpl.
  rewrite !lookup_fmap.
  repeat split; try done.
  - intros [v ->]. simpl. eauto.
  - by intros ->.
  - intros [v ->]. simpl. eauto.
  - intros k H1 H2 H3. rewrite Hs4. unfold processed_entry.
    by rewrite !bool_decide_eq_false_2, lookup_fmap by done.
Qed.

(** X10.  The post-processing prints the warning of line 180 exactly when
    the deadline of the reply is a non-empty text that does not parse,
    once, naming that text; otherwise it prints nothing. *)
Theorem deadline_warning_exactly_when_unparsable self td ctx prefs load t o t1 r t2 :
  llm_layer self td ctx prefs load t = (Ok (JObj o), t1) ->
  get_task_suggestions self td ctx prefs load t = (Ok r, t2) ->
  (forall text, o !! "deadline" = Some (JStr text) -> text <> ""%string ->
                strptime text = None ->
     t2 = t1 ++ [EvPrint ("Warning: Could not parse AI suggested deadline: " +:+ text
                          +:+ ". Setting a default.")])
  /\ ((forall text, o !! "deadline" = Some (JStr text) ->
                    text = ""%string \/ is_Some (strptime text)) ->
      t2 = t1).
Proof.
  intros Hllm Hrun.
  destruct (get_task_suggestions_returned _ _ _ _ _ _ _ _ _ _ Hllm Hrun) as (s4 & _ & -> & _).
  split.
  - intros text -> Hne Hp. simpl. by rewrite (bool_decide_eq_false_2 _ Hne), Hp.
  - intros Hok. destruct (o !! "deadline") as [[| b | z | f | text | l | o']|];
      simpl; rewrite ?app_nil_r; try done.
    case_bool_decide; [by rewrite app_nil_r|].
    destruct (Hok text eq_refl) as [-> | [parsed Hp]]; [done|].
    by rewrite Hp, app_nil_r.
Qed.

(** X11.  A run of [get_task_suggestions] invokes the adapter once or
    twice and sends at most two requests, whatever the replies are and
    whether it returns or raises. *)
Theorem at_most_two_requests self td ctx prefs load t :
  (requests_sent (snd (get_task_suggestions self td ctx prefs load t))
   <= 2 + requests_sent t)%nat
  /\ exists added,
       calls_of (snd (get_task_suggestions self td ctx prefs load t)) = calls_of t ++ added
       /\ (1 <= length added <= 2)%nat.
Proof.
  destruct (get_task_suggestions_trace self td ctx prefs load t) as [-> ->].
  apply llm_layer_bounds.
Qed.

(** X12.  Edge values of the priority in a returned record: a boolean
    counts as a number and gives 1 (true is 1, false is 0 and is clamped);
    null and NaN give 50; a finite float is truncated towards zero, then
    clamped. *)
Theorem priority_edge_values self td ctx prefs load t o t1 r t2 :
  llm_layer self td ctx prefs load t = (Ok (JObj o), t1) ->
  get_task_suggestions self td ctx prefs load t = (Ok r, t2) ->
  (forall b, o !! "priority_score" = Some (JBool b) ->
             r !! "priority_score" = Some (OVal (VJson (JInt 1))))
  /\ (o !! "priority_score" = Some JNull \/ o !! "priority_score" = Some (JFloat S754_nan) ->
      r !! "priority_score" = Some (OVal (VJson (JInt 50))))
  /\ (forall f z, o !! "priority_score" = Some (JFloat f) -> int_of_float f = Ok z ->
      r !! "priority_score" = Some (OVal (VJson (JInt (Z.max 1 (Z.min 100 z)))))).
Proof.
  intros Hllm Hrun.
  destruct (get_task_suggestions_cases self td ctx prefs load t o t1 Hllm)
    as [(b & _ & H) | [(v & _ & _ & _ & H) | (r' & t' & H & _ & _ & _ & Hps & _)]];
    rewrite H in Hrun; simplify_eq.
  rewrite Hps. repeat split.
  - intros b ->. by destruct b.
  - by intros [-> | ->].
  - intros f z -> Hz. simpl. by rewrite Hz.
Qed.

(** X13.  With an adapter that has no client (the one built for 'claude'),
    [get_task_suggestions] returns the all-default record without sending
    any request: priority 50, the task's own category and description, no
    recommendations, the default deadline, and a raw response that holds
    that deadline alone. *)
Theorem uninitialised_adapter_defaults self td ctx prefs load t :
  the_client self = None ->
  exists r t',
    get_task_suggestions self td ctx prefs load t = (Ok r, t')
    /\ requests_sent t' = requests_sent t
    /\ r !! "priority_score" = Some (OVal (VJson (JInt 50)))
    /\ r !! "deadline"
       = Some (OVal (VDateTime (replace_time (add_days 3 datetime_now) 17 0 0 0)))
    /\ r !! "suggested_category"
       = Some (OVal (VJson (dict_get td "category" (JStr "Uncategorized"))))
    /\ r !! "enhanced_description"
       = Some (OVal (VJson (dict_get td "description" (JStr ""))))
    /\ r !! "recommendations" = Some (OVal (VJson (JList [])))
    /\ r !! "ai_raw_response"
       = Some (ORaw {[ "deadline"
                       := VDateTime (replace_time (add_days 3 datetime_now) 17 0 0 0) ]}).
Proof.
  intros Hc.
  destruct (get_task_suggestions_uninitialised self td ctx prefs load t Hc) as (t' & Hrun & Hreq).
  eexists _, t'. split; [exact Hrun|]. split; [exact Hreq|].
  rewrite build_result_priority, build_result_deadline, build_result_category,
    build_result_description, build_result_recommendations, build_result_raw.
  unfold dict_get. rewrite lookup_singleton_eq, !lookup_singleton_ne by done.
  done.
Qed.

End SuggestionProperties.

Section SummaryProperties.
Context `{RT : Runtime}.
Implicit Types (self : AITaskManagement) (td : gmap string json)
  (ctx : list ContextEntry) (prefs : json) (load : Z) (t : list event).

Lemma str_take_prefix n text : exists rest, text = str_take n text +:+ rest.
Proof.
  revert text. induction n as [|n IH]; intros text.
  - by exists text.
  - destruct text as [|a text]; [by exists ""%string|].
    destruct (IH text) as [rest Hrest]. exists rest.
    change (String a text = String a (str_take n text +:+ rest)). congruence.
Qed.

Lemma str_take_all n text : (String.length text <= n)%nat -> str_take n text = text.
Proof.
  revert text. induction n as [|n IH]; intros [|a text]; simpl; try done; try lia.
  intros Hlen. rewrite IH; [done | lia].
Qed.


(** X15.  The fallback summary is a prefix of the concatenated context
    followed by "...": it never exceeds 203 characters, and a context of at
    most 200 characters is kept whole. *)
Theorem summary_fallback_bounds combined :
  (String.length (summary_fallback combined) <= 203)%nat
  /\ (exists kept rest, combined = kept +:+ rest
        /\ summary_fallback combined = kept +:+ "...")
  /\ ((String.length combined <= 200)%nat ->
      summary_fallback combined = combined +:+ "...").
Proof.
  split; [apply summary_fallback_length|]. split.
  - destruct (str_take_prefix 200 combined) as [rest Hrest].
    by exists (str_take 200 combined), rest.
  - intros Hlen. unfold summary_fallback. by rewrite str_take_all.
Qed.

End SummaryProperties.

Section HookProperties.
Context `{RT : Runtime}.
Implicit Types (mgr : AITaskManagement) (task : Task)
  (ctx : list ContextEntry) (load : Z) (t : list event).

(** X16.  For every mapping that [get_task_suggestions] returns to the
    hook, the two lookups of views.py lines 61-62 read stored entries: an
    integer priority between 1 and 100 (never the default 0) and a
    timestamp as deadline (never None). *)
Theorem hook_reads_valid_fields mgr task ctx load t r t' :
  get_task_suggestions mgr (task_details_of task) ctx (JObj ∅) load t = (Ok r, t') ->
  exists n stamp,
    hook_priority_score r = OVal (VJson (JInt n)) /\ 1 <= n <= 100
    /\ hook_deadline r = OVal (VDateTime stamp)
    /\ r !! "priority_score" = Some (hook_priority_score r)
    /\ r !! "deadline" = Some (hook_deadline r).
Proof.
  intros Hrun.
  destruct (get_task_suggestions_returns _ _ _ _ _ _ _ _ Hrun) as (o & t1 & s4 & Hllm & _ & _).
  destruct (get_task_suggestions_cases _ _ _ _ _ _ _ _ Hllm)
    as [(b & _ & H) | [(v & _ & _ & _ & H) | (r' & t3 & H & _ & _ & Hdom & Hps & Hdl & _)]];
    rewrite H in Hrun; simplify_eq.
  destruct (priority_outcome_range (VJson <$> o !! "priority_score")) as (n & Hn & Hrange).
  exists n, (deadline_outcome (VJson <$> o !! "deadline")).
  unfold hook_priority_score, hook_deadline, dict_get. rewrite Hps, Hdl, Hn. done.
Qed.

(** X18.  The hook always passes the three keys of [task_details], so the
    defaults of lines 118-120 ('', '', 'Uncategorized') are never used: a
    task without category passes None, and with an adapter that has no
    client its suggested category is None, not 'Uncategorized' (and the
    enhanced description of a task without description is None). *)
Theorem hook_never_uses_uncategorized mgr task ctx load t :
  dict_get (task_details_of task) "title" (JStr "") = JStr (title task)
  /\ dict_get (task_details_of task) "description" (JStr "")
     = match description task with Some text => JStr text | None => JNull end
  /\ dict_get (task_details_of task) "category" (JStr "Uncategorized")
     = match category task with Some c => JStr (name c) | None => JNull end
  /\ (the_client mgr = None ->
      exists r t',
        get_task_suggestions mgr (task_details_of task) ctx (JObj ∅) load t = (Ok r, t')
        /\ r !! "suggested_category"
           = Some (OVal (VJson (match category task with
                                | Some c => JStr (name c)
                                | None => JNull
                                end)))
        /\ r !! "enhanced_description"
           = Some (OVal (VJson (match description task with
                                | Some text => JStr text
                                | None => JNull
                                end)))).
Proof.
  assert (dict_get (task_details_of task) "description" (JStr "")
          = match description task with Some text => JStr text | None => JNull end) as Hd.
  { unfold dict_get, task_details_of. by simplify_map_eq. }
  assert (dict_get (task_details_of task) "category" (JStr "Uncategorized")
          = match category task with Some c => JStr (name c) | None => JNull end) as Hcat.
  { unfold dict_get, task_details_of. by simplify_map_eq. }
  split; [unfold dict_get, task_details_of; by simplify_map_eq|].
  split; [exact Hd|]. split; [exact Hcat|].
  intros Hc.
  destruct (get_task_suggestions_uninitialised mgr (task_details_of task) ctx (JObj ∅) load t Hc)
    as (t' & Hrun & _).
  eexists _, t'. split; [exact Hrun|].
  rewrite build_result_category, build_result_description, Hd, Hcat.
  unfold dict_get. by rewrite !lookup_singleton_ne.
Qed.

End HookProperties.

(** * The further properties on concrete runs *)

Lemma unknown_choice_rejected_witness :
  "gemini"%string <> "openai"%string /\ "gemini"%string <> "claude"%string
  /\ "gemini"%string <> "lm_studio"%string
  /\ @__init__ Demo.outage_runtime "gemini" [] = (Raise ValueError, []).
Proof.
  split; [discriminate|]. split; [discriminate|]. split; [discriminate|].
  apply (@unknown_choice_rejected Demo.outage_runtime "gemini" []); discriminate.
Defined.

Lemma call_llm_raises_only_unbound_local_witness :
  the_client Demo.claude_manager = None
  /\ (exists res t',
        @_call_llm Demo.outage_runtime Demo.claude_manager "Suggest." "gpt-4o-mini" 400 []
        = (res, t')
        /\ res = Ok (JObj ∅) /\ requests_sent t' = 0%nat)
  /\ request_decode_error (RT := Demo.decode_outage_runtime) Demo.openai_manager
       "Suggest." "gpt-4o-mini" 400 []
  /\ fst (@_call_llm Demo.decode_outage_runtime Demo.openai_manager
            "Suggest." "gpt-4o-mini" 400 []) = Raise UnboundLocalError.
Proof.
  split; [reflexivity|]. split.
  { destruct (@call_llm_raises_only_unbound_local Demo.outage_runtime Demo.claude_manager
                "Suggest." "gpt-4o-mini" 400 []) as (res & t' & Hrun & _ & _ & Hnone & _).
    exists res, t'. split; [exact Hrun|]. exact (Hnone eq_refl). }
  assert (request_decode_error (RT := Demo.decode_outage_runtime) Demo.openai_manager
            "Suggest." "gpt-4o-mini" 400 []) as Hdec.
  { exists (OpenAI None (Some "sk-test"%string)),
      "Expecting value: line 1 column 1 (char 0)"%string.
    split; [reflexivity|]. split; [by left | reflexivity]. }
  split; [exact Hdec|].
  destruct (@call_llm_raises_only_unbound_local Demo.decode_outage_runtime
              Demo.openai_manager "Suggest." "gpt-4o-mini" 400 [])
    as (res & t' & Hrun & _ & _ & _ & _ & Hraise).
  rewrite Hrun. exact (Hraise Hdec).
Defined.

Lemma call_llm_outcomes_witness :
  the_client Demo.openai_manager = Some (OpenAI None (Some "sk-test"%string))
  /\ supported Demo.openai_manager
  /\ exists res tail,
       @_call_llm Demo.valid_runtime Demo.openai_manager "Suggest." "gpt-4o-mini" 400 []
       = (res, [] ++ EvCall "Suggest." "gpt-4o-mini" 400
                  :: EvRequest (OpenAI None (Some "sk-test"%string))
                       (chat_request "Suggest." "gpt-4o-mini" 400) :: tail)
       /\ requests_sent tail = 0%nat.
Proof.
  split; [reflexivity|]. split; [by left|].
  destruct (@call_llm_outcomes Demo.valid_runtime Demo.openai_manager
              (OpenAI None (Some "sk-test"%string)) "Suggest." "gpt-4o-mini" 400 []
              eq_refl (or_introl eq_refl)) as (res & tail & Hrun & Hreq & _).
  exists res, tail. split; [exact Hrun | exact Hreq].
Defined.

Lemma process_daily_context_outcome_witness :
  exists res t',
    @_call_llm Demo.prose_runtime Demo.openai_manager
      (daily_context_prompt "Rent is due Friday") "gpt-3.5-turbo" 300 [] = (res, t')
    /\ forall o, res = Ok (JObj o) ->
         @process_daily_context Demo.prose_runtime Demo.openai_manager "Rent is due Friday" []
         = (Ok (JObj o), t').
Proof.
  destruct (@process_daily_context_outcome Demo.prose_runtime Demo.openai_manager
              "Rent is due Friday" []) as (res & t' & Hcall & _ & _ & _ & Hdict & _).
  exists res, t'. split; [exact Hcall | exact Hdict].
Defined.

Lemma process_daily_context_failure_witness :
  llm_call_fails (RT := Demo.outage_runtime) Demo.openai_manager
    (daily_context_prompt "Rent is due Friday") "gpt-3.5-turbo" 300 []
  /\ (exists o t',
        @process_daily_context Demo.outage_runtime Demo.openai_manager
          "Rent is due Friday" [] = (Ok (JObj o), t')
        /\ o !! "summary" = None /\ is_failure (JObj o) = true)
  /\ request_decode_error (RT := Demo.decode_outage_runtime) Demo.openai_manager
       (daily_context_prompt "Rent is due Friday") "gpt-3.5-turbo" 300 []
  /\ exists t',
       @process_daily_context Demo.decode_outage_runtime Demo.openai_manager
         "Rent is due Friday" [] = (Raise UnboundLocalError, t').
Proof.
  assert (llm_call_fails (RT := Demo.outage_runtime) Demo.openai_manager
            (daily_context_prompt "Rent is due Friday") "gpt-3.5-turbo" 300 []) as Hfail.
  { right. exists (OpenAI None (Some "sk-test"%string)).
    split; [reflexivity|]. split; [by left|]. left.
    by exists "Connection error."%string. }
  assert (request_decode_error (RT := Demo.decode_outage_runtime) Demo.openai_manager
            (daily_context_prompt "Rent is due Friday") "gpt-3.5-turbo" 300 []) as Hdec.
  { exists (OpenAI None (Some "sk-test"%string)),
      "Expecting value: line 1 column 1 (char 0)"%string.
    split; [reflexivity|]. split; [by left | reflexivity]. }
  split; [exact Hfail|]. split.
  { destruct (proj1 (@process_daily_context_failure Demo.outage_runtime Demo.openai_manager
                       "Rent is due Friday" []) Hfail)
      as (o & t' & Hrun & _ & _ & _ & _ & Hsum & _ & Herr).
    exists o, t'. split; [exact Hrun|]. split; [exact Hsum|]. apply Herr. discriminate. }
  split; [exact Hdec|].
  exact (proj2 (@process_daily_context_failure Demo.decode_outage_runtime
                  Demo.openai_manager "Rent is due Friday" []) Hdec).
Defined.

Lemma reply_text_fields_pass_through_witness :
  fst (@llm_layer Demo.null_category_runtime Demo.openai_manager Demo.sample_task []
         Demo.no_preferences 3 [])
  = Ok (JObj {[ "suggested_category" := JNull ]})
  /\ exists r t2,
       @get_task_suggestions Demo.null_category_runtime Demo.openai_manager
         Demo.sample_task [] Demo.no_preferences 3 [] = (Ok r, t2)
       /\ r !! "suggested_category" = Some (OVal (VJson JNull))
       /\ r !! "enhanced_description" = Some (OVal (VJson (JStr "Transfer to landlord"))).
Proof.
  split; [vm_compute; reflexivity|].
  set (run := @get_task_suggestions Demo.null_category_runtime Demo.openai_manager
                Demo.sample_task [] Demo.no_preferences 3 []).
  assert (run = (Ok (Demo.returned run), snd run)) as Hrun by (vm_compute; reflexivity).
  exists (Demo.returned run), (snd run). split; [exact Hrun|].
  destruct (@reply_text_fields_pass_through Demo.null_category_runtime Demo.openai_manager
              Demo.sample_task [] Demo.no_preferences 3 []
              {[ "suggested_category" := JNull ]}
              (snd (@llm_layer Demo.null_category_runtime Demo.openai_manager
                      Demo.sample_task [] Demo.no_preferences 3 []))
              (Demo.returned run) (snd run))
    as (Hcat & _ & _ & Hdesc); [vm_compute; reflexivity | exact Hrun |].
  split; [by apply Hcat | by apply Hdesc].
Defined.

Lemma well_formed_reply_unchanged_witness :
  fst (@llm_layer Demo.valid_runtime Demo.openai_manager Demo.sample_task []
         Demo.no_preferences 3 [])
  = Ok (JObj {[ "priority_score" := JInt 80;
                "deadline" := JStr "2025-03-10 09:00:00";
                "recommendations" := JList [JStr "Call the bank"] ]})
  /\ @strptime Demo.valid_runtime "2025-03-10 09:00:00" = Some (DateTime 2025 3 10 9 0 0 0)
  /\ exists r,
       fst (@get_task_suggestions Demo.valid_runtime Demo.openai_manager Demo.sample_task []
              Demo.no_preferences 3 []) = Ok r
       /\ r !! "priority_score" = Some (OVal (VJson (JInt 80)))
       /\ r !! "deadline" = Some (OVal (VDateTime (DateTime 2025 3 10 9 0 0 0)))
       /\ r !! "recommendations" = Some (OVal (VJson (JList [JStr "Call the bank"]))).
Proof.
  split; [vm_compute; reflexivity|]. split; [vm_compute; reflexivity|].
  destruct (@well_formed_reply_unchanged Demo.valid_runtime Demo.openai_manager
              Demo.sample_task [] Demo.no_preferences 3 []
              {[ "priority_score" := JInt 80;
                 "deadline" := JStr "2025-03-10 09:00:00";
                 "recommendations" := JList [JStr "Call the bank"] ]}
              (snd (@llm_layer Demo.valid_runtime Demo.openai_manager Demo.sample_task []
                      Demo.no_preferences 3 []))
              80 "2025-03-10 09:00:00" (DateTime 2025 3 10 9 0 0 0) [JStr "Call the bank"])
    as (r & Hrun & Hps & Hdl & Hrec);
    [vm_compute; reflexivity | vm_compute; reflexivity | lia | vm_compute; reflexivity
     | discriminate | vm_compute; reflexivity | vm_compute; reflexivity |].
  exists r. rewrite Hrun. repeat split; assumption.
Defined.

Lemma raw_response_is_post_processed_witness :
  exists r t2 raw,
    @get_task_suggestions Demo.vague_runtime Demo.openai_manager Demo.sample_task []
      Demo.no_preferences 3 [] = (Ok r, t2)
    /\ r !! "ai_raw_response" = Some (ORaw raw)
    /\ exists stamp, raw !! "deadline" = Some (VDateTime stamp)
                     /\ r !! "deadline" = Some (OVal (VDateTime stamp)).
Proof.
  set (run := @get_task_suggestions Demo.vague_runtime Demo.openai_manager
                Demo.sample_task [] Demo.no_preferences 3 []).
  assert (run = (Ok (Demo.returned run), snd run)) as Hrun by (vm_compute; reflexivity).
  destruct (@raw_response_is_post_processed Demo.vague_runtime Demo.openai_manager
              Demo.sample_task [] Demo.no_preferences 3 []
              {[ "deadline" := JStr "next Friday" ]}
              (snd (@llm_layer Demo.vague_runtime Demo.openai_manager
                      Demo.sample_task [] Demo.no_preferences 3 []))
              (Demo.returned run) (snd run))
    as (raw & stamp & Hraw & Hdl & Hrdl & _); [vm_compute; reflexivity | exact Hrun |].
  exists (Demo.returned run), (snd run), raw.
  split; [exact Hrun|]. split; [exact Hraw|]. exists stamp. by split.
Defined.

Lemma deadline_warning_exactly_when_unparsable_witness :
  @strptime Demo.vague_runtime "next Friday" = None
  /\ snd (@get_task_suggestions Demo.vague_runtime Demo.openai_manager Demo.sample_task []
            Demo.no_preferences 3 [])
     = snd (@llm_layer Demo.vague_runtime Demo.openai_manager Demo.sample_task []
              Demo.no_preferences 3 [])
       ++ [EvPrint "Warning: Could not parse AI suggested deadline: next Friday. Setting a default."].
Proof.
  split; [vm_compute; reflexivity|].
  set (run := @get_task_suggestions Demo.vague_runtime Demo.openai_manager
                Demo.sample_task [] Demo.no_preferences 3 []).
  assert (run = (Ok (Demo.returned run), snd run)) as Hrun by (vm_compute; reflexivity).
  destruct (@deadline_warning_exactly_when_unparsable Demo.vague_runtime Demo.openai_manager
              Demo.sample_task [] Demo.no_preferences 3 []
              {[ "deadline" := JStr "next Friday" ]}
              (snd (@llm_layer Demo.vague_runtime Demo.openai_manager
                      Demo.sample_task [] Demo.no_preferences 3 []))
              (Demo.returned run) (snd run))
    as (Hwarn & _); [vm_compute; reflexivity | exact Hrun |].
  apply (Hwarn "next Friday"%string);
    [vm_compute; reflexivity | discriminate | vm_compute; reflexivity].
Defined.

Lemma priority_edge_values_witness :
  exists r t2,
    @get_task_suggestions Demo.true_priority_runtime Demo.openai_manager Demo.sample_task []
      Demo.no_preferences 3 [] = (Ok r, t2)
    /\ r !! "priority_score" = Some (OVal (VJson (JInt 1))).
Proof.
  set (run := @get_task_suggestions Demo.true_priority_runtime Demo.openai_manager
                Demo.sample_task [] Demo.no_preferences 3 []).
  assert (run = (Ok (Demo.returned run), snd run)) as Hrun by (vm_compute; reflexivity).
  destruct (@priority_edge_values Demo.true_priority_runtime Demo.openai_manager
              Demo.sample_task [] Demo.no_preferences 3 []
              {[ "priority_score" := JBool true ]}
              (snd (@llm_layer Demo.true_priority_runtime Demo.openai_manager
                      Demo.sample_task [] Demo.no_preferences 3 []))
              (Demo.returned run) (snd run))
    as (Hbool & _); [vm_compute; reflexivity | exact Hrun |].
  exists (Demo.returned run), (snd run). split; [exact Hrun|].
  apply (Hbool true). vm_compute; reflexivity.
Defined.

Lemma uninitialised_adapter_defaults_witness :
  the_client Demo.claude_manager = None
  /\ exists r t',
       @get_task_suggestions Demo.outage_runtime Demo.claude_manager Demo.sample_task
         Demo.sample_context Demo.no_preferences 3 [] = (Ok r, t')
       /\ requests_sent t' = 0%nat
       /\ r !! "priority_score" = Some (OVal (VJson (JInt 50)))
       /\ r !! "deadline" = Some (OVal (VDateTime (DateTime 2025 3 10 17 0 0 0))).
Proof.
  split; [reflexivity|].
  destruct (@uninitialised_adapter_defaults Demo.outage_runtime Demo.claude_manager
              Demo.sample_task Demo.sample_context Demo.no_preferences 3 [] eq_refl)
    as (r & t' & Hrun & Hreq & Hps & Hdl & _).
  exists r, t'. repeat split; assumption.
Defined.


Lemma summary_fallback_bounds_witness :
  (String.length "Source: email: Rent is due Friday" <= 200)%nat
  /\ summary_fallback "Source: email: Rent is due Friday"
     = "Source: email: Rent is due Friday..."%string.
Proof.
  split; [vm_compute; lia|].
  apply (proj2 (proj2 (summary_fallback_bounds "Source: email: Rent is due Friday"))).
  vm_compute; lia.
Defined.

Lemma hook_reads_valid_fields_witness :
  exists r t',
    @get_task_suggestions Demo.true_priority_runtime Demo.openai_manager
      (task_details_of Demo.sample_record) [] (JObj ∅) 1 [] = (Ok r, t')
    /\ exists n stamp,
         hook_priority_score r = OVal (VJson (JInt n)) /\ 1 <= n <= 100
         /\ hook_deadline r = OVal (VDateTime stamp).
Proof.
  set (run := @get_task_suggestions Demo.true_priority_runtime Demo.openai_manager
                (task_details_of Demo.sample_record) [] (JObj ∅) 1 []).
  assert (run = (Ok (Demo.returned run), snd run)) as Hrun by (vm_compute; reflexivity).
  destruct (@hook_reads_valid_fields Demo.true_priority_runtime Demo.openai_manager
              Demo.sample_record [] 1 [] _ _ Hrun)
    as (n & stamp & Hps & Hn & Hdl & _).
  exists (Demo.returned run), (snd run). split; [exact Hrun|].
  exists n, stamp. split; [exact Hps|]. split; [exact Hn | exact Hdl].
Defined.

Lemma hook_never_uses_uncategorized_witness :
  the_client Demo.claude_manager = None
  /\ category Demo.sample_record = None
  /\ exists r t',
       @get_task_suggestions Demo.outage_runtime Demo.claude_manager
         (task_details_of Demo.sample_record) Demo.sample_context (JObj ∅) 1 [] = (Ok r, t')
       /\ r !! "suggested_category" = Some (OVal (VJson JNull)).
Proof.
  split; [reflexivity|]. split; [reflexivity|].
  destruct (proj2 (proj2 (proj2 (@hook_never_uses_uncategorized Demo.outage_runtime
                     Demo.claude_manager Demo.sample_record Demo.sample_context 1 [])))
              eq_refl)
    as (r & t' & Hrun & Hcat & _).
  exists r, t'. split; assumption.
Defined.

Lemma openai_adapter_needs_key_witness :
  @getenv Demo.outage_runtime "OPENAI_API_KEY" = None
  /\ @__init__ Demo.outage_runtime "openai" []
     = (Raise OpenAIError,
        [EvPrint "Warning: OPENAI_API_KEY not found in environment variables. OpenAI client may not work."]).
Proof.
  split; [reflexivity|].
  apply (proj1 (@openai_adapter_needs_key Demo.outage_runtime [])). reflexivity.
Defined.
